(** * Pulp: distributor bindings of a repository and worker heartbeats

    A shallow embedding of [pulp.server.managers.repo.distributor]
    (class [RepoDistributorManager]) and of the heartbeat handler of
    [pulp.server.async.worker_watcher], with the properties of the
    binding lifecycle that the specification states about them.

    Python values are a small universe [pyval]; a [dict] with string
    keys is a [gmap string pyval]; a Mongo collection is the list of
    its documents in natural (insertion) order; a manager method is a
    computation over the database that either returns or raises, and
    keeps the writes it made before raising. *)

From Stdlib Require Import ZArith NArith String Ascii List Bool Lia.
From stdpp Require Import base option list gmap strings fin_maps.
Import ListNotations.

Local Open Scope string_scope.
Local Set Warnings "-register-all".

(** ** Python values *)

Module Py.

(** The values that travel through configurations, plugin results and
    exception arguments. *)
Inductive pyval : Type :=
| PyNone
| PyBool (b : bool)
| PyInt (z : Z)
| PyStr (s : string)
| PyTuple (items : list pyval).

(** [v is None] *)
Definition is_None (v : pyval) : bool :=
  match v with PyNone => true | _ => false end.

(** [isinstance(v, bool)] *)
Definition isinstance_bool (v : pyval) : bool :=
  match v with PyBool _ => true | _ => false end.

(** Truth value of [v], as [not v] and [if v] test it. *)
Definition truthy (v : pyval) : bool :=
  match v with
  | PyNone => false
  | PyBool b => b
  | PyInt z => negb (Z.eqb z 0)
  | PyStr s => negb (String.eqb s "")
  | PyTuple items => match items with [] => false | _ => true end
  end.

(** The exceptions that the manager raises or lets through.
    [MissingResource] keeps its keyword arguments as the
    [resources] mapping; [PulpDataException(x)] keeps [x];
    [PyException] is any other [Exception] a plugin raises, with its
    [args]; [TypeError] and [ValueError] are raised by the interpreter
    with a message, [OverflowError] by the database driver. *)
Inductive exn : Type :=
| MissingResource (resources : gmap string string)
| InvalidValue (property_names : list string)
| PulpDataException (arg : pyval)
| PulpExecutionException
| PluginNotFound (type_id : string)
| TypeError (msg : string)
| ValueError (msg : string)
| OverflowError (msg : string)
| PyException (args : list pyval).

Inductive outcome (A : Type) : Type :=
| Returns (a : A)
| Raises (e : exn).
Arguments Returns {A} a.
Arguments Raises {A} e.

(** [a, b = v]: unpacking a value into exactly two targets. *)
Definition unpack2 (v : pyval) : outcome (pyval * pyval) :=
  match v with
  | PyTuple [a; b] => Returns (a, b)
  | PyTuple (_ :: _ :: _ :: _) => Raises (ValueError "too many values to unpack")
  | PyTuple [_] => Raises (ValueError "need more than 1 value to unpack")
  | PyTuple [] => Raises (ValueError "need more than 0 values to unpack")
  | PyStr (String a (String b EmptyString)) =>
      Returns (PyStr (String a EmptyString), PyStr (String b EmptyString))
  | PyStr (String _ (String _ (String _ _))) =>
      Raises (ValueError "too many values to unpack")
  | PyStr (String _ EmptyString) =>
      Raises (ValueError "need more than 1 value to unpack")
  | PyStr EmptyString => Raises (ValueError "need more than 0 values to unpack")
  | PyNone => Raises (TypeError "'NoneType' object is not iterable")
  | PyBool _ => Raises (TypeError "'bool' object is not iterable")
  | PyInt _ => Raises (TypeError "'int' object is not iterable")
  end.

End Py.
Export Py.

(** ** Transfer objects of [pulp.plugins.model] and the plugin interface *)

Module Plugins.

(** [pulp.plugins.model.Repository], with the attributes its
    constructor sets ([repository_id] is its [id]); optional ones are
    [PyNone] by default. *)
Record Repository : Type := mkRepository {
  repository_id : string;
  display_name : pyval;
  description : pyval;
  notes : option (gmap string pyval);
  working_dir : option string;
  content_unit_counts : gmap string pyval;
  last_unit_added : pyval;
  last_unit_removed : pyval
}.

(** [transfer_repo.working_dir = d] *)
Definition set_working_dir (r : Repository) (d : string) : Repository :=
  mkRepository (repository_id r) (display_name r) (description r) (notes r) (Some d)
               (content_unit_counts r) (last_unit_added r) (last_unit_removed r).

(** [PluginCallConfiguration(plugin_config, repo_plugin_config)]: the
    pair the plugin looks keys up in; the repository's part may be
    [None]. *)
Record PluginCallConfiguration : Type := mkPluginCallConfiguration {
  plugin_config : gmap string pyval;
  repo_plugin_config : option (gmap string pyval)
}.

(** [RepoConfigConduit(distributor_type_id)] *)
Record RepoConfigConduit : Type := mkRepoConfigConduit {
  conduit_type_id : string
}.

(** A distributor plugin instance: the four entry points the manager
    calls.  A call returns a value or raises; it does not touch the
    manager's collections. *)
Record Distributor : Type := mkDistributor {
  validate_config :
    Repository -> PluginCallConfiguration -> RepoConfigConduit -> outcome pyval;
  distributor_added : Repository -> PluginCallConfiguration -> outcome unit;
  distributor_removed : Repository -> PluginCallConfiguration -> outcome unit;
  create_consumer_payload :
    Repository -> PluginCallConfiguration -> pyval -> outcome pyval
}.

End Plugins.
Export Plugins.

(** ** The database: collections and the state-and-exception monad *)

Module Db.

(** A document of the [repos] collection: its [id] and the rest of its
    fields, which the manager hands to [to_transfer_repo] unread. *)
Record Repo : Type := mkRepo {
  repo_doc_id : string;
  repo_doc_fields : gmap string pyval
}.

(** A document of the [repo_distributors] collection.  [rd_oid] is the
    document's [_id], [rd_id] its [id].  [rd_config] is [None] when the
    binding was added without a configuration.  [rd_scratchpad] is
    [None] when the document carries no [scratchpad] field at all, and
    [Some PyNone] when the field is there and null. *)
Record RepoDistributor : Type := mkRepoDistributor {
  rd_oid : N;
  rd_repo_id : string;
  rd_id : string;
  rd_distributor_type_id : string;
  rd_config : option (gmap string pyval);
  rd_auto_publish : pyval;
  rd_scratchpad : option pyval;
  rd_scheduled_publishes : list string
}.

(** [doc['auto_publish'] = v] and [doc['config'] = c] on a fetched
    document. *)
Definition set_auto_publish (d : RepoDistributor) (v : pyval) : RepoDistributor :=
  mkRepoDistributor (rd_oid d) (rd_repo_id d) (rd_id d) (rd_distributor_type_id d)
    (rd_config d) v (rd_scratchpad d) (rd_scheduled_publishes d).

Definition set_config (d : RepoDistributor) (c : gmap string pyval) : RepoDistributor :=
  mkRepoDistributor (rd_oid d) (rd_repo_id d) (rd_id d) (rd_distributor_type_id d)
    (Some c) (rd_auto_publish d) (rd_scratchpad d) (rd_scheduled_publishes d).

(** The projection [{'scratchpad': 0}]: the field is left out. *)
Definition project_out_scratchpad (d : RepoDistributor) : RepoDistributor :=
  mkRepoDistributor (rd_oid d) (rd_repo_id d) (rd_id d) (rd_distributor_type_id d)
    (rd_config d) (rd_auto_publish d) None (rd_scheduled_publishes d).

(** A scheduled publish, as far as the manager is concerned: which
    distributor of which repository it belongs to. *)
Record ScheduledCall : Type := mkScheduledCall {
  sc_id : string;
  sc_repo_id : string;
  sc_distributor_id : string
}.

Record db : Type := mkDb {
  repos : list Repo;
  repo_distributors : list RepoDistributor;
  scheduled_calls : list ScheduledCall
}.

(** [Repo.get_collection().find_one({'id': repo_id})] *)
Definition find_one_repo (repo_id : string) (c : list Repo) : option Repo :=
  find (fun r => String.eqb (repo_doc_id r) repo_id) c.

(** The query [{'repo_id': repo_id, 'id': distributor_id}]. *)
Definition matches (repo_id distributor_id : string) (d : RepoDistributor) : bool :=
  String.eqb (rd_repo_id d) repo_id && String.eqb (rd_id d) distributor_id.

(** [find_one({'repo_id': repo_id, 'id': distributor_id})]: the first
    matching document, if any. *)
Definition find_one (repo_id distributor_id : string)
    (c : list RepoDistributor) : option RepoDistributor :=
  find (matches repo_id distributor_id) c.

(** [remove({'_id': oid})] *)
Definition remove_by_oid (oid : N) (c : list RepoDistributor) : list RepoDistributor :=
  List.filter (fun d => negb (N.eqb (rd_oid d) oid)) c.

(** [save(doc)]: the document with the same [_id] is replaced in place,
    and the document is inserted when there is none. *)
Definition save (doc : RepoDistributor) (c : list RepoDistributor) : list RepoDistributor :=
  if existsb (fun d => N.eqb (rd_oid d) (rd_oid doc)) c
  then map (fun d => if N.eqb (rd_oid d) (rd_oid doc) then doc else d) c
  else c ++ [doc].

(** A computation over a state [S] that returns or raises, and hands
    on the state it leaves behind.  A manager method runs over the
    database, [S = db]; one that also mutates an argument of its caller
    runs over the database and that object. *)
Definition M (S A : Type) : Type := S -> outcome A * S.

Definition ret {S A} (a : A) : M S A := fun st => (Returns a, st).

Definition raise {S A} (e : exn) : M S A := fun st => (Raises e, st).

Definition bind {S A B} (m : M S A) (k : A -> M S B) : M S B :=
  fun st =>
    match m st with
    | (Returns a, st') => k a st'
    | (Raises e, st') => (Raises e, st')
    end.

(** [try: m except ...: h e]; [h] decides per exception what happens,
    re-raising the ones no clause catches. *)
Definition try_except {S A} (m : M S A) (h : exn -> M S A) : M S A :=
  fun st =>
    match m st with
    | (Returns a, st') => (Returns a, st')
    | (Raises e, st') => h e st'
    end.

Definition get {S} : M S S := fun st => (Returns st, st).

Definition put {S} (st' : S) : M S unit := fun _ => (Returns tt, st').

(** The result of a plugin or interpreter step, inside a method. *)
Definition call {S A} (o : outcome A) : M S A := fun st => (o, st).

(** [distributor_coll.save(doc, safe=True)] as a step.  The driver and
    the server may refuse a document instead of storing it, as the
    driver does with [OverflowError] for an int that does not fit 8
    bytes; [refusal] tells, for the collection as it is and the document,
    what is raised then.  A save that is refused writes nothing. *)
Definition save_distributor
    (refusal : list RepoDistributor -> RepoDistributor -> option exn)
    (doc : RepoDistributor) : M db unit :=
  fun st =>
    match refusal (repo_distributors st) doc with
    | Some e => (Raises e, st)
    | None =>
        (Returns tt,
         mkDb (repos st) (save doc (repo_distributors st)) (scheduled_calls st))
    end.

(** [distributor_coll.remove({'_id': oid}, safe=True)] as a step. *)

Definition remove_distributor_doc (oid : N) : M db unit :=
  fun st => (Returns tt,
             mkDb (repos st) (remove_by_oid oid (repo_distributors st)) (scheduled_calls st)).

End Db.
Export Db.

Notation "'let*' x ':=' c1 'in' c2" := (Db.bind c1 (fun x => c2))
  (at level 10, x pattern, c1 at level 100, c2 at level 200).
Notation "c1 ';;' c2" := (Db.bind c1 (fun _ => c2))
  (at level 100, c2 at level 200, right associativity).

(** ** Worker heartbeats: [pulp.server.async.worker_watcher] *)

Module WorkerWatcher.

(** A broker event, and what [_parse_and_log_event] keeps of it.  The
    timestamp is the event's time as a number; only its order matters
    here. *)
Record Event : Type := mkEvent {
  ev_timestamp : Z;
  ev_type : string;
  ev_hostname : string
}.

Record EventInfo : Type := mkEventInfo {
  info_timestamp : Z;
  info_type : string;
  info_worker_name : string
}.

(** A document of the workers collection; its [_id] is the worker's
    name, which is the key of the collection. *)
Record Worker : Type := mkWorker {
  worker_name : string;
  last_heartbeat : Z
}.

(** Modelled from the spec: [_parse_and_log_event] is not among the
    sources either.  Its test fixes the result: the keys [timestamp],
    [type] and [worker_name], taken from the event's [timestamp], [type]
    and [hostname]. *)
Definition _parse_and_log_event (event : Event) : EventInfo :=
  mkEventInfo (ev_timestamp event) (ev_type event) (ev_hostname event).

(** [find_and_modify(query={'_id': name},
                     update={'$set': {'last_heartbeat': timestamp}})]:
    the one document with that [_id], if there is one, gets the field
    set; nothing is inserted. *)
Definition find_and_modify_last_heartbeat (name : string) (timestamp : Z)
    (workers : gmap string Worker) : gmap string Worker :=
  alter (fun w => mkWorker (worker_name w) timestamp) name workers.

(** [Worker(name, timestamp).save()] *)
Definition save_worker (w : Worker) (workers : gmap string Worker) : gmap string Worker :=
  <[worker_name w := w]> workers.

(** Modelled from the spec: [handle_worker_heartbeat] itself is not
    among the sources, only its unit tests are.  Section 4.4: look the
    worker up by identity; if absent, create the record with
    [last_heartbeat = timestamp]; if present, set
    [last_heartbeat = timestamp] by a single update keyed by identity.
    The tests fix the two branches: the look-up filters on
    [{'_id': worker_name}], the absent branch saves
    [Worker(worker_name, timestamp)], the present branch calls
    [find_and_modify] with the unconditional [$set] above. *)
Definition handle_worker_heartbeat (event : Event)
    (workers : gmap string Worker) : gmap string Worker :=
  let event_info := _parse_and_log_event event in
  match workers !! info_worker_name event_info with
  | Some _ =>
      find_and_modify_last_heartbeat (info_worker_name event_info)
        (info_timestamp event_info) workers
  | None =>
      save_worker (mkWorker (info_worker_name event_info) (info_timestamp event_info))
        workers
  end.

(** The heartbeat on record for a worker. *)
Definition recorded_heartbeat (name : string) (workers : gmap string Worker) : option Z :=
  last_heartbeat <$> workers !! name.

(** A heartbeat event of worker [name] at time [t]. *)
Definition heartbeat (name : string) (t : Z) : Event :=
  mkEvent t "worker-heartbeat" name.

End WorkerWatcher.

(** ** [pulp.server.managers.repo.distributor] *)

(** One character of [[\-_A-Za-z0-9]]. *)
Definition id_char (c : ascii) : bool :=
  let n := nat_of_ascii c in
  Nat.eqb n 45 || Nat.eqb n 95
  || (Nat.leb 65 n && Nat.leb n 90)
  || (Nat.leb 97 n && Nat.leb n 122)
  || (Nat.leb 48 n && Nat.leb n 57).

Fixpoint all_id_chars (s : string) : bool :=
  match s with
  | EmptyString => true
  | String c rest => id_char c && all_id_chars rest
  end.

(** [$] matches at the end of the string and also just before a newline
    that ends it. *)
Fixpoint without_final_newline (s : string) : string :=
  match s with
  | EmptyString => EmptyString
  | String c EmptyString => if Nat.eqb (nat_of_ascii c) 10 then EmptyString else s
  | String c rest => String c (without_final_newline rest)
  end.

(** [_DISTRIBUTOR_ID_REGEX.match(distributor_id) is not None] for
    [^[\-_A-Za-z0-9]+$]. *)
Definition is_distributor_id_valid (distributor_id : string) : bool :=
  let body := without_final_newline distributor_id in
  negb (String.eqb body "") && all_id_chars body.

(** [dict([(k, v) for k, v in config.items() if v is not None])] *)
Definition without_None (config : gmap string pyval) : gmap string pyval :=
  filter (fun kv => is_None (snd kv) = false) config.

(** [[k for k in config if config[k] is None]] *)
Definition unset_property_names (config : gmap string pyval) : list string :=
  List.map fst (List.filter (fun kv => is_None (snd kv)) (map_to_list config)).

(** The loop [for key in names: merged.pop(key, None); delta.pop(key, None)],
    on the two dictionaries it mutates. *)
Fixpoint pop_each (names : list string) (merged delta : gmap string pyval)
  : gmap string pyval * gmap string pyval :=
  match names with
  | [] => (merged, delta)
  | key :: rest => pop_each rest (delete key merged) (delete key delta)
  end.

(** [merged.update(delta)]: the entries of [delta] win. *)
Definition dict_update (merged delta : gmap string pyval) : gmap string pyval :=
  delta ∪ merged.

(** [dict(x)] for the stored configuration [x], which may be [None]. *)
Definition dict_copy (x : option (gmap string pyval)) : outcome (gmap string pyval) :=
  match x with
  | Some d => Returns d
  | None => Raises (TypeError "'NoneType' object is not iterable")
  end.

(** Modelled from the spec: the document class [RepoDistributor] is not
    among the sources.  Section 3: a binding carries the owner, its id
    within the owner, the plugin type, the configuration, the
    auto-publish flag, a scratchpad and the set of schedule ids; a new
    one has given the first five, a null scratchpad and no schedules.
    [oid] is the [_id] the new document gets. *)
Definition new_RepoDistributor (oid : N) (repo_id distributor_id distributor_type_id : string)
    (config : option (gmap string pyval)) (auto_publish : pyval) : RepoDistributor :=
  mkRepoDistributor oid repo_id distributor_id distributor_type_id config auto_publish
    (Some PyNone) [].

(** The schedules that are not held by the given distributor. *)
Definition schedules_without (repo_id distributor_id : string)
    (calls : list ScheduledCall) : list ScheduledCall :=
  List.filter
    (fun sc => negb (String.eqb (sc_repo_id sc) repo_id
                     && String.eqb (sc_distributor_id sc) distributor_id))
    calls.

(** Modelled from the spec: [RepoPublishScheduleManager] is not among
    the sources.  Section 6: [delete_all_schedules_for(owner_id,
    binding_id)] removes the schedules held by that binding. *)
Definition delete_by_distributor_id (repo_id distributor_id : string) : M db unit :=
  fun st =>
    (Returns tt,
     mkDb (repos st) (repo_distributors st)
       (schedules_without repo_id distributor_id (scheduled_calls st))).

(** A method over the database, run where the state also holds an
    object of the caller. *)
Definition on_db {T A} (m : M db A) : M (db * T) A :=
  fun s =>
    match m (fst s) with
    | (o, st') => (o, (st', snd s))
    end.

(** For backward compatibility with plugins that don't yet return the
    tuple: [if isinstance(result, bool): valid_config = result; message
    = None; else: valid_config, message = result]. *)
Definition normalize (result : pyval) : outcome (pyval * pyval) :=
  if isinstance_bool result then Returns (result, PyNone) else unpack2 result.

(** [except MissingResource: pass]; anything else goes on up. *)
Definition pass_if_missing (e : exn) : M db unit :=
  match e with
  | MissingResource _ => ret tt
  | _ => raise e
  end.

(** [doc['scratchpad'] = v] on a fetched document. *)
Definition set_scratchpad (d : RepoDistributor) (v : pyval) : RepoDistributor :=
  mkRepoDistributor (rd_oid d) (rd_repo_id d) (rd_id d) (rd_distributor_type_id d)
    (rd_config d) (rd_auto_publish d) (Some v) (rd_scheduled_publishes d).

(** [{'$push': {'scheduled_publishes': schedule_id}}] and
    [{'$pull': {'scheduled_publishes': schedule_id}}] on a document:
    the id is appended; every occurrence of the id is taken out. *)
Definition push_schedule (schedule_id : string) (d : RepoDistributor) : RepoDistributor :=
  mkRepoDistributor (rd_oid d) (rd_repo_id d) (rd_id d) (rd_distributor_type_id d)
    (rd_config d) (rd_auto_publish d) (rd_scratchpad d)
    (rd_scheduled_publishes d ++ [schedule_id]).

Definition pull_schedule (schedule_id : string) (d : RepoDistributor) : RepoDistributor :=
  mkRepoDistributor (rd_oid d) (rd_repo_id d) (rd_id d) (rd_distributor_type_id d)
    (rd_config d) (rd_auto_publish d) (rd_scratchpad d)
    (List.filter (fun s => negb (String.eqb s schedule_id)) (rd_scheduled_publishes d)).

(** [collection.update({'_id': oid}, change, safe=True)]: the first
    document with that [_id] is changed, and nothing else. *)
Fixpoint update_by_oid (oid : N) (change : RepoDistributor -> RepoDistributor)
    (c : list RepoDistributor) : list RepoDistributor :=
  match c with
  | [] => []
  | d :: rest =>
      if N.eqb (rd_oid d) oid then change d :: rest
      else d :: update_by_oid oid change rest
  end.

Definition update_distributor_doc (oid : N)
    (change : RepoDistributor -> RepoDistributor) : M db unit :=
  fun st => (Returns tt,
             mkDb (repos st) (update_by_oid oid change (repo_distributors st))
               (scheduled_calls st)).

(** [schedule_id in distributor['scheduled_publishes']] *)
Definition scheduled (schedule_id : string) (d : RepoDistributor) : bool :=
  existsb (String.eqb schedule_id) (rd_scheduled_publishes d).

Section RepoDistributorManager.

(** The plugin registry ([pulp.plugins.loader.api]): the distributor
    instance and the default configuration loaded for a type id. *)
Variable registry : string -> option (Distributor * gmap string pyval).

(** [common_utils.to_transfer_repo] and
    [common_utils.get_working_directory()]. *)
Variable to_transfer_repo : Repo -> Repository.
Variable get_working_directory : string.

(** [e.args] for the exception classes of [pulp.server.exceptions]. *)
Variable pulp_exception_args : exn -> list pyval.

(** What the database raises instead of storing a document. *)
Variable save_refusal : list RepoDistributor -> RepoDistributor -> option exn.

(** Modelled from the spec: [pulp.plugins.loader.api] is not among the
    sources.  Section 4.1: [is_valid(type_id)] tells whether the type is
    registered; [get(type_id)] returns the plugin instance and its
    default configuration and fails with a not-found error if the type
    is unregistered. *)
Definition is_valid_distributor (distributor_type_id : string) : bool :=
  match registry distributor_type_id with Some _ => true | None => false end.

Definition get_distributor_by_id (distributor_type_id : string)
  : outcome (Distributor * gmap string pyval) :=
  match registry distributor_type_id with
  | Some found => Returns found
  | None => Raises (PluginNotFound distributor_type_id)
  end.

(** [e.args] *)
Definition args (e : exn) : list pyval :=
  match e with
  | PyException a => a
  | TypeError msg => [PyStr msg]
  | ValueError msg => [PyStr msg]
  | OverflowError msg => [PyStr msg]
  | _ => pulp_exception_args e
  end.

Definition get_distributor (repo_id distributor_id : string) : M db RepoDistributor :=
  let* st := get in
  match find_one repo_id distributor_id (repo_distributors st) with
  | None => raise (MissingResource {[ "distributor" := distributor_id ]})
  | Some distributor => ret distributor
  end.

Definition find_by_repo_list (repo_id_list : list string) : M db (list RepoDistributor) :=
  let* st := get in
  ret (List.map project_out_scratchpad
         (List.filter (fun d => existsb (String.eqb (rd_repo_id d)) repo_id_list)
            (repo_distributors st))).

Definition remove_distributor (repo_id distributor_id : string) : M db unit :=
  let* st := get in
  (* Validation *)
  match find_one_repo repo_id (repos st) with
  | None => raise (MissingResource {[ "repository" := repo_id ]})
  | Some repo =>
  match find_one repo_id distributor_id (repo_distributors st) with
  | None => raise (MissingResource {[ "distributor" := distributor_id ]})
  | Some repo_distributor =>
      (* remove schedules *)
      delete_by_distributor_id repo_id (rd_id repo_distributor) ;;
      (* Call the distributor's cleanup method *)
      let distributor_type_id := rd_distributor_type_id repo_distributor in
      let* found := call (get_distributor_by_id distributor_type_id) in
      let distributor_instance := fst found in
      let plugin_config := snd found in
      let call_config :=
        mkPluginCallConfiguration plugin_config (rd_config repo_distributor) in
      let transfer_repo :=
        set_working_dir (to_transfer_repo repo) get_working_directory in
      call (distributor_removed distributor_instance transfer_repo call_config) ;;
      (* Update the database to reflect the removal *)
      remove_distributor_doc (rd_oid repo_distributor)
  end
  end.

(** [uuid4] is the string [str(uuid.uuid4())] would yield, [oid] the
    [_id] a new document would get. *)
Definition add_distributor (uuid4 : string) (oid : N)
    (repo_id distributor_type_id : string)
    (repo_plugin_config : option (gmap string pyval)) (auto_publish : pyval)
    (distributor_id : option string) : M db RepoDistributor :=
  let* st := get in
  (* Validation *)
  match find_one_repo repo_id (repos st) with
  | None => raise (MissingResource {[ "repository" := repo_id ]})
  | Some repo =>
      if negb (is_valid_distributor distributor_type_id)
      then raise (InvalidValue ["distributor_type_id"])
      else
      let* distributor_id :=
        match distributor_id with
        | None => ret uuid4
        | Some given =>
            if negb (is_distributor_id_valid given)
            then raise (InvalidValue ["distributor_id"])
            else ret given
        end in
      let* found := call (get_distributor_by_id distributor_type_id) in
      let distributor_instance := fst found in
      let plugin_config := snd found in
      (* a value of None means unset *)
      let clean_config :=
        match repo_plugin_config with
        | Some config => Some (without_None config)
        | None => None
        end in
      (* Let the distributor plugin verify the configuration *)
      let call_config := mkPluginCallConfiguration plugin_config clean_config in
      let transfer_repo := to_transfer_repo repo in
      let config_conduit := mkRepoConfigConduit distributor_type_id in
      let* result :=
        call (validate_config distributor_instance transfer_repo call_config
                config_conduit) in
      let* checked := call (normalize result) in
      let valid_config := fst checked in
      let message := snd checked in
      if negb (truthy valid_config)
      then raise (PulpDataException message)
      else
      (* Remove the old distributor if it exists *)
      try_except (remove_distributor repo_id distributor_id) pass_if_missing ;;
      (* Let the distributor plugin initialize the repository *)
      try_except (call (distributor_added distributor_instance transfer_repo call_config))
        (fun _ => raise PulpExecutionException) ;;
      (* Database Update *)
      let distributor :=
        new_RepoDistributor oid repo_id distributor_id distributor_type_id
          clean_config auto_publish in
      save_distributor save_refusal distributor ;;
      ret distributor
  end.

(** The state is the database together with the caller's
    [distributor_config] dictionary, which the method mutates. *)
Definition update_distributor_config (repo_id distributor_id : string)
    (auto_publish : pyval) : M (db * gmap string pyval) RepoDistributor :=
  let* s := get in
  (* Input Validation *)
  match find_one_repo repo_id (repos (fst s)) with
  | None => raise (MissingResource {[ "repository" := repo_id ]})
  | Some repo =>
  match find_one repo_id distributor_id (repo_distributors (fst s)) with
  | None => raise (MissingResource {[ "distributor" := distributor_id ]})
  | Some repo_distributor =>
      let distributor_type_id := rd_distributor_type_id repo_distributor in
      let* found := call (get_distributor_by_id distributor_type_id) in
      let distributor_instance := fst found in
      let plugin_config := snd found in
      let* merged_config := call (dict_copy (rd_config repo_distributor)) in
      (* None in an update is removing the value *)
      let distributor_config := snd s in
      let popped :=
        pop_each (unset_property_names distributor_config) merged_config
          distributor_config in
      let distributor_config := snd popped in
      put (fst s, distributor_config) ;;
      (* Whatever is left over are the changed/added values *)
      let merged_config := dict_update (fst popped) distributor_config in
      (* Let the distributor plugin verify the configuration *)
      let call_config := mkPluginCallConfiguration plugin_config (Some merged_config) in
      let transfer_repo :=
        set_working_dir (to_transfer_repo repo) get_working_directory in
      let config_conduit := mkRepoConfigConduit distributor_type_id in
      let* checked :=
        try_except
          (let* result :=
             call (validate_config distributor_instance transfer_repo call_config
                     config_conduit) in
           call (normalize result))
          (fun e => raise (PulpDataException (PyTuple (args e)))) in
      let valid_config := fst checked in
      let message := snd checked in
      if negb (truthy valid_config)
      then raise (PulpDataException message)
      else
      (* Confirm that the auto_publish value is sane *)
      let* repo_distributor :=
        if negb (is_None auto_publish)
        then if isinstance_bool auto_publish
             then ret (set_auto_publish repo_distributor auto_publish)
             else raise (InvalidValue ["auto_publish"])
        else ret repo_distributor in
      (* the new config is valid, so update the database *)
      let repo_distributor := set_config repo_distributor merged_config in
      on_db (save_distributor save_refusal repo_distributor) ;;
      ret repo_distributor
  end
  end.

(** What [common_utils.to_transfer_repo] makes of [None], the result
    of a repository look-up that found nothing. *)
Variable to_transfer_repo_of_None : outcome Repository.

Definition get_distributors (repo_id : string) : M db (list RepoDistributor) :=
  let* st := get in
  match find_one_repo repo_id (repos st) with
  | None => raise (MissingResource {[ "repository" := repo_id ]})
  | Some _ =>
      ret (List.filter (fun d => String.eqb (rd_repo_id d) repo_id)
             (repo_distributors st))
  end.

Definition create_bind_payload (repo_id distributor_id : string)
    (binding_config : pyval) : M db pyval :=
  (* Input Validation *)
  let* repo_distributor := get_distributor repo_id distributor_id in
  let* st := get in
  let repo := find_one_repo repo_id (repos st) in
  let distributor_type_id := rd_distributor_type_id repo_distributor in
  let* found := call (get_distributor_by_id distributor_type_id) in
  let distributor_instance := fst found in
  let plugin_config := snd found in
  let call_config :=
    mkPluginCallConfiguration plugin_config (rd_config repo_distributor) in
  let* transfer_repo :=
    call (match repo with
          | Some repo => Returns (to_transfer_repo repo)
          | None => to_transfer_repo_of_None
          end) in
  let transfer_repo := set_working_dir transfer_repo get_working_directory in
  try_except
    (call (create_consumer_payload distributor_instance transfer_repo call_config
             binding_config))
    (fun _ => raise PulpExecutionException).

Definition get_distributor_scratchpad (repo_id distributor_id : string) : M db pyval :=
  let* st := get in
  match find_one repo_id distributor_id (repo_distributors st) with
  | None => ret PyNone
  | Some repo_distributor =>
      ret (match rd_scratchpad repo_distributor with
           | Some scratchpad => scratchpad
           | None => PyNone
           end)
  end.

Definition set_distributor_scratchpad (repo_id distributor_id : string)
    (contents : pyval) : M db unit :=
  let* st := get in
  match find_one repo_id distributor_id (repo_distributors st) with
  | None => ret tt
  | Some repo_distributor =>
      save_distributor save_refusal (set_scratchpad repo_distributor contents)
  end.

Definition add_publish_schedule (repo_id distributor_id schedule_id : string) : M db unit :=
  let* st := get in
  match find_one repo_id distributor_id (repo_distributors st) with
  | None =>
      raise (MissingResource
               {[ "repo" := repo_id; "distributor" := distributor_id ]})
  | Some distributor =>
      if scheduled schedule_id distributor then ret tt
      else update_distributor_doc (rd_oid distributor) (push_schedule schedule_id)
  end.

Definition remove_publish_schedule (repo_id distributor_id schedule_id : string)
  : M db unit :=
  let* st := get in
  match find_one repo_id distributor_id (repo_distributors st) with
  | None =>
      raise (MissingResource
               {[ "repo" := repo_id; "distributor" := distributor_id ]})
  | Some distributor =>
      if negb (scheduled schedule_id distributor) then ret tt
      else update_distributor_doc (rd_oid distributor) (pull_schedule schedule_id)
  end.

Definition list_publish_schedules (repo_id distributor_id : string)
  : M db (list string) :=
  let* st := get in
  match find_one repo_id distributor_id (repo_distributors st) with
  | None =>
      raise (MissingResource
               {[ "repo" := repo_id; "distributor" := distributor_id ]})
  | Some distributor => ret (rd_scheduled_publishes distributor)
  end.

End RepoDistributorManager.

(** ** Notions the properties are stated with *)

(** The id a new binding gets: the one passed in when it is valid, the
    generated one when none is passed; [None] when the one passed in is
    not valid. *)
Definition assigned_id (uuid4 : string) (distributor_id : option string) : option string :=
  match distributor_id with
  | None => Some uuid4
  | Some given => if is_distributor_id_valid given then Some given else None
  end.

(** [validate_config] turned the configuration down: it returned
    [False], or the pair [(False, message)]. *)
Definition turned_down (result message : pyval) : Prop :=
  (result = PyBool false /\ message = PyNone)
  \/ result = PyTuple [PyBool false; message].

(** [validate_config] returned a verdict, in either shape, that is
    true. *)
Definition accepted (result : pyval) : bool :=
  match normalize result with
  | Returns checked => truthy (fst checked)
  | Raises _ => false
  end.

(** What the merging steps of [update_distributor_config] make of a
    stored configuration and a delta: the merged configuration, and the
    delta as it is left to the caller. *)
Definition merge_delta (stored delta : gmap string pyval)
  : gmap string pyval * gmap string pyval :=
  let popped := pop_each (unset_property_names delta) stored delta in
  (dict_update (fst popped) (snd popped), snd popped).

(** The first step of the replacement in [add_distributor]: remove the
    old distributor, and carry on if there was none. *)
Definition remove_old (registry : string -> option (Distributor * gmap string pyval))
    (to_transfer_repo : Repo -> Repository) (get_working_directory : string)
    (repo_id distributor_id : string) : M db unit :=
  try_except
    (remove_distributor registry to_transfer_repo get_working_directory
       repo_id distributor_id)
    pass_if_missing.

(** What identifies a stored binding: its [_id], and the repository
    and id it is bound under. *)
Definition identity (d : RepoDistributor) : N * (string * string) :=
  (rd_oid d, (rd_repo_id d, rd_id d)).

(** No two stored bindings share an [_id], as the collection's primary
    key has it. *)
Definition unique_oids (c : list RepoDistributor) : Prop :=
  NoDup (List.map rd_oid c).

(** No two stored bindings share a repository and an id. *)
Definition unique_keys (c : list RepoDistributor) : Prop :=
  NoDup (List.map (fun d => (rd_repo_id d, rd_id d)) c).

(** No stored configuration maps a key to [None]. *)
Definition configs_clean (c : list RepoDistributor) : Prop :=
  forall (d : RepoDistributor) (config : gmap string pyval) (k : string),
    In d c -> rd_config d = Some config -> config !! k <> Some PyNone.

(** An int that fits 8 bytes, signed: the ints the database holds. *)
Definition fits_8_bytes (z : Z) : bool :=
  Z.leb (- 2 ^ 63) z && Z.leb z (2 ^ 63 - 1).

(** A value all of whose ints fit 8 bytes. *)
Fixpoint storable (v : pyval) : bool :=
  match v with
  | PyInt z => fits_8_bytes z
  | PyTuple items => forallb storable items
  | _ => true
  end.

(** A binding document all of whose values are storable. *)
Definition storable_document (d : RepoDistributor) : bool :=
  match rd_config d with
  | Some config => forallb (fun kv => storable (snd kv)) (map_to_list config)
  | None => true
  end
  && storable (rd_auto_publish d)
  && match rd_scratchpad d with
     | Some scratchpad => storable scratchpad
     | None => true
     end.

(** The refusal of the driver for ints: a document with an int outside
    8 bytes is not stored, and [OverflowError] is raised. *)
Definition overflow_refusal (c : list RepoDistributor) (doc : RepoDistributor)
  : option exn :=
  if storable_document doc then None
  else Some (OverflowError "MongoDB can only handle up to 8-byte ints").

(** ** Stand-ins for plugins and a small database, for running the methods *)

Module Mock.

(** A distributor that accepts every configuration and whose callbacks
    return. *)
Definition distributor : Distributor :=
  mkDistributor (fun _ _ _ => Returns (PyBool true))
                (fun _ _ => Returns tt)
                (fun _ _ => Returns tt)
                (fun _ _ _ => Returns PyNone).

(** [validate_config.return_value = False, 'foo'] *)
Definition rejecting : Distributor :=
  mkDistributor (fun _ _ _ => Returns (PyTuple [PyBool false; PyStr "foo"]))
                (fun _ _ => Returns tt)
                (fun _ _ => Returns tt)
                (fun _ _ _ => Returns PyNone).

(** [validate_config.side_effect = Exception('foo')] *)
Definition validate_raises : Distributor :=
  mkDistributor (fun _ _ _ => Raises (PyException [PyStr "foo"]))
                (fun _ _ => Returns tt)
                (fun _ _ => Returns tt)
                (fun _ _ _ => Returns PyNone).

(** [distributor_added.side_effect = Exception()] *)
Definition added_raises : Distributor :=
  mkDistributor (fun _ _ _ => Returns (PyBool true))
                (fun _ _ => Raises (PyException []))
                (fun _ _ => Returns tt)
                (fun _ _ _ => Returns PyNone).

(** [distributor_removed.side_effect = Exception()] *)
Definition removed_raises : Distributor :=
  mkDistributor (fun _ _ _ => Returns (PyBool true))
                (fun _ _ => Returns tt)
                (fun _ _ => Raises (PyException []))
                (fun _ _ _ => Returns PyNone).

Definition registry (type_id : string) : option (Distributor * gmap string pyval) :=
  if String.eqb type_id "mock-distributor" then Some (distributor, ∅)
  else if String.eqb type_id "mock-rejecting" then Some (rejecting, ∅)
  else if String.eqb type_id "mock-validate-raises" then Some (validate_raises, ∅)
  else if String.eqb type_id "mock-added-raises" then Some (added_raises, ∅)
  else if String.eqb type_id "mock-removed-raises" then Some (removed_raises, ∅)
  else None.

Definition to_transfer_repo (repo : Repo) : Repository :=
  mkRepository (repo_doc_id repo) PyNone PyNone None None ∅ PyNone PyNone.

Definition working_directory : string := "/var/cache/pulp/mock_worker/mock_task_id".

Definition exception_args (e : exn) : list pyval := [].

(** One repository, [repo-1], with two distributors and a schedule on
    each; [d2]'s plugin fails on removal, and [d1] has a scratchpad. *)
Definition d1 : RepoDistributor :=
  mkRepoDistributor 1 "repo-1" "d1" "mock-distributor"
    (Some {[ "a" := PyStr "a"; "b" := PyStr "b"; "c" := PyStr "c" ]})
    (PyBool false) (Some (PyStr "state")) ["s1"].

Definition d2 : RepoDistributor :=
  mkRepoDistributor 2 "repo-1" "d2" "mock-removed-raises" (Some ∅)
    (PyBool false) (Some PyNone) ["s2"].

Definition d3 : RepoDistributor :=
  mkRepoDistributor 3 "repo-1" "d3" "mock-rejecting" (Some ∅)
    (PyBool false) (Some PyNone) [].

Definition d4 : RepoDistributor :=
  mkRepoDistributor 4 "repo-1" "d4" "mock-validate-raises" (Some ∅)
    (PyBool false) (Some PyNone) [].

Definition store : db :=
  mkDb [mkRepo "repo-1" ∅] [d1; d2; d3; d4]
       [mkScheduledCall "s1" "repo-1" "d1"; mkScheduledCall "s2" "repo-1" "d2"].

(** The manager's methods over these stand-ins. *)
Definition add :=
  add_distributor registry to_transfer_repo working_directory overflow_refusal.
Definition remove := remove_distributor registry to_transfer_repo working_directory.
Definition update :=
  update_distributor_config registry to_transfer_repo working_directory exception_args
    overflow_refusal.

(** A distributor whose [create_consumer_payload] raises, a registry
    that has it in place of the plain one, and what the transfer of a
    missing repository does. *)
Definition payload_raises : Distributor :=
  mkDistributor (fun _ _ _ => Returns (PyBool true))
                (fun _ _ => Returns tt)
                (fun _ _ => Returns tt)
                (fun _ _ _ => Raises (PyException [PyStr "no payload"])).

Definition registry_payload_raises (type_id : string)
  : option (Distributor * gmap string pyval) :=
  if String.eqb type_id "mock-distributor" then Some (payload_raises, ∅)
  else None.

Definition transfer_of_None : outcome Repository :=
  Raises (TypeError "'NoneType' object has no attribute '__getitem__'").

(** A binding stored without a configuration, and a database that has
    it beside [d1]. *)
Definition d5 : RepoDistributor :=
  mkRepoDistributor 5 "repo-1" "d5" "mock-distributor" None
    (PyBool false) (Some PyNone) [].

Definition store_with_d5 : db :=
  mkDb [mkRepo "repo-1" ∅] [d1; d5] [].

(** The other methods over the stand-ins. *)
Definition payload :=
  create_bind_payload registry to_transfer_repo working_directory transfer_of_None.
Definition payload_failing :=
  create_bind_payload registry_payload_raises to_transfer_repo working_directory
    transfer_of_None.

End Mock.

(** ** Properties *)

(** Unfolds the plumbing of [M], leaving the method's own steps. *)
Ltac run :=
  cbv beta iota delta
    [bind get put ret raise call try_except on_db pass_if_missing
     save_distributor remove_distributor_doc delete_by_distributor_id fst snd].

(** Unfolds the plumbing of [M] and the document steps. *)
Ltac run_all :=
  cbv beta iota delta
    [bind get put ret raise call try_except on_db pass_if_missing
     save_distributor remove_distributor_doc update_distributor_doc
     delete_by_distributor_id fst snd].

(** *** Dictionaries *)

Lemma without_None_lookup (config : gmap string pyval) (k : string) (v : pyval) :
  without_None config !! k = Some v <-> config !! k = Some v /\ v <> PyNone.
Proof.
  unfold without_None. rewrite map_lookup_filter_Some. simpl.
  split; intros [Hk Hv]; split; try done.
  - intros ->. discriminate.
  - destruct v; done.
Qed.

Lemma without_None_no_None (config : gmap string pyval) (k : string) :
  without_None config !! k <> Some PyNone.
Proof. intros H. apply without_None_lookup in H as [_ H]. done. Qed.

Lemma elem_of_unset_property_names (delta : gmap string pyval) (k : string) :
  k ∈ unset_property_names delta <-> delta !! k = Some PyNone.
Proof.
  unfold unset_property_names. rewrite list_elem_of_In, in_map_iff. split.
  - intros [[k' v] [Hk Hin]]. simpl in Hk. subst k'.
    apply filter_In in Hin as [Hin Hv]. simpl in Hv.
    apply list_elem_of_In, elem_of_map_to_list in Hin.
    destruct v; try discriminate. exact Hin.
  - intros Hk. exists (k, PyNone). split; [reflexivity|].
    apply filter_In. split; [|reflexivity].
    apply list_elem_of_In, elem_of_map_to_list. exact Hk.
Qed.

Lemma pop_each_lookup (names : list string) (merged delta : gmap string pyval) (k : string) :
  fst (pop_each names merged delta) !! k
  = (if decide (k ∈ names) then None else merged !! k)
  /\ snd (pop_each names merged delta) !! k
     = (if decide (k ∈ names) then None else delta !! k).
Proof.
  revert merged delta. induction names as [|key rest IH]; intros merged delta; simpl.
  - split; reflexivity.
  - destruct (IH (delete key merged) (delete key delta)) as [IHm IHd].
    rewrite IHm, IHd. clear IH IHm IHd.
    destruct (decide (k ∈ rest)) as [Hin|Hnin].
    + rewrite !decide_True by (apply elem_of_cons; auto). split; reflexivity.
    + destruct (decide (k = key)) as [->|Hne].
      * rewrite !decide_True by (apply elem_of_cons; auto).
        rewrite !lookup_delete_eq. split; reflexivity.
      * rewrite !decide_False by (rewrite elem_of_cons; tauto).
        rewrite !lookup_delete_ne by done. split; reflexivity.
Qed.

(** The configurations of the manager's own tests. *)
Example without_None_test_add_distributor :
  without_None {[ "a" := PyStr "a"; "b" := PyNone ]} = {[ "a" := PyStr "a" ]}.
Proof. vm_compute. reflexivity. Qed.

Example merge_delta_test_update_distributor_config :
  merge_delta {[ "a" := PyStr "a"; "b" := PyStr "b"; "c" := PyStr "c" ]}
    {[ "a" := PyStr "A"; "b" := PyNone; "d" := PyStr "D" ]}
  = ({[ "a" := PyStr "A"; "c" := PyStr "c"; "d" := PyStr "D" ]},
     {[ "a" := PyStr "A"; "d" := PyStr "D" ]}).
Proof. vm_compute. reflexivity. Qed.

Example is_distributor_id_valid_examples :
  is_distributor_id_valid "d1" = true
  /\ is_distributor_id_valid "my_Dist-2" = true
  /\ is_distributor_id_valid "!@#$%^&*()" = false
  /\ is_distributor_id_valid "" = false
  /\ is_distributor_id_valid "has space" = false.
Proof. repeat split; reflexivity. Qed.

(** *** Collections *)

Lemma find_one_Some (repo_id distributor_id : string) (c : list RepoDistributor)
    (d : RepoDistributor) :
  find_one repo_id distributor_id c = Some d ->
  In d c /\ rd_repo_id d = repo_id /\ rd_id d = distributor_id.
Proof.
  intros H. apply find_some in H as [Hin Hm]. split; [exact Hin|].
  unfold matches in Hm. apply andb_prop in Hm as [H1 H2].
  apply String.eqb_eq in H1, H2. auto.
Qed.

Lemma find_one_None_incl (repo_id distributor_id : string) (c c' : list RepoDistributor) :
  incl c' c ->
  find_one repo_id distributor_id c = None ->
  find_one repo_id distributor_id c' = None.
Proof.
  intros Hincl Hnone. unfold find_one in *.
  destruct (find (matches repo_id distributor_id) c') as [d|] eqn:Hfind; [|reflexivity].
  apply find_some in Hfind as [Hin Hm].
  rewrite (find_none _ _ Hnone d (Hincl d Hin)) in Hm. discriminate.
Qed.

Lemma remove_by_oid_incl (oid : N) (c : list RepoDistributor) :
  incl (remove_by_oid oid c) c.
Proof. intros d Hd. unfold remove_by_oid in Hd. apply filter_In in Hd. tauto. Qed.

Lemma remove_by_oid_gone (oid : N) (c : list RepoDistributor) (d : RepoDistributor) :
  In d (remove_by_oid oid c) -> rd_oid d <> oid.
Proof.
  intros Hd. unfold remove_by_oid in Hd. apply filter_In in Hd as [_ Hd].
  apply negb_true_iff, N.eqb_neq in Hd. exact Hd.
Qed.

Lemma save_In (doc : RepoDistributor) (c : list RepoDistributor) :
  In doc (save doc c).
Proof.
  unfold save. destruct (existsb _ c) eqn:Hex.
  - apply existsb_exists in Hex as [x [Hin Hx]].
    apply in_map_iff. exists x. rewrite Hx. auto.
  - apply in_or_app. right. left. reflexivity.
Qed.

(** Saving a changed copy of the document a query finds first leaves
    the query finding that copy. *)
Lemma find_one_save (repo_id distributor_id : string) (c : list RepoDistributor)
    (old doc : RepoDistributor) :
  find_one repo_id distributor_id c = Some old ->
  rd_oid doc = rd_oid old ->
  matches repo_id distributor_id doc = true ->
  find_one repo_id distributor_id (save doc c) = Some doc.
Proof.
  intros Hfind Hoid Hm. unfold save.
  assert (Hex : existsb (fun d => N.eqb (rd_oid d) (rd_oid doc)) c = true).
  { apply existsb_exists. exists old. split.
    - apply find_some in Hfind. tauto.
    - rewrite Hoid. apply N.eqb_refl. }
  rewrite Hex. clear Hex. unfold find_one in *.
  induction c as [|x c IH]; simpl in *; [discriminate|].
  destruct (matches repo_id distributor_id x) eqn:Hx.
  - injection Hfind as ->. rewrite Hoid, N.eqb_refl, Hm. reflexivity.
  - destruct (N.eqb (rd_oid x) (rd_oid doc)).
    + rewrite Hm. reflexivity.
    + rewrite Hx. apply IH. exact Hfind.
Qed.

(** *** Reads *)

(** C10: the single-binding read looks at the bindings only.  With no
    matching record it raises [MissingResource] whose resources name the
    distributor and nothing else, whatever the owner store holds; with a
    matching record it returns it, whatever the owner store holds (an
    empty one included); the database is left as it was. *)
Theorem get_distributor_never_consults_owners
    (repo_id distributor_id : string) (owners owners' : list Repo)
    (bindings : list RepoDistributor) (schedules : list ScheduledCall) :
  get_distributor repo_id distributor_id (mkDb owners bindings schedules)
  = (match find_one repo_id distributor_id bindings with
     | Some distributor => Returns distributor
     | None => Raises (MissingResource {[ "distributor" := distributor_id ]})
     end,
     mkDb owners bindings schedules)
  /\ fst (get_distributor repo_id distributor_id (mkDb owners' bindings schedules))
     = fst (get_distributor repo_id distributor_id (mkDb owners bindings schedules))
  /\ (forall k : string,
        k <> "distributor" ->
        ({[ "distributor" := distributor_id ]} : gmap string string) !! k = None).
Proof.
  unfold get_distributor. run. simpl.
  repeat split.
  - destruct (find_one repo_id distributor_id bindings); reflexivity.
  - destruct (find_one repo_id distributor_id bindings); reflexivity.
  - intros k Hk. apply lookup_singleton_ne. congruence.
Qed.

(** C9: the bulk read returns, for any list of repository ids, the
    stored bindings of those repositories with the scratchpad field
    projected out of every one of them, whatever scratchpad the stored
    binding has; it never raises and leaves the database as it was. *)
Theorem find_by_repo_list_without_scratchpad (repo_id_list : list string) (st : db) :
  exists found : list RepoDistributor,
    find_by_repo_list repo_id_list st = (Returns found, st)
    /\ Forall (fun d => rd_scratchpad d = None) found
    /\ (forall d : RepoDistributor,
          In d (repo_distributors st) ->
          existsb (String.eqb (rd_repo_id d)) repo_id_list = true ->
          In (project_out_scratchpad d) found).
Proof.
  eexists. split; [reflexivity|]. split.
  - apply Forall_forall. intros d Hd. apply list_elem_of_In in Hd.
    apply in_map_iff in Hd as [d0 [<- _]]. reflexivity.
  - intros d Hin Hrepo. apply in_map. apply filter_In. auto.
Qed.

(** The reads on the stand-in database: [d1] comes back from the bulk
    read without its scratchpad, unknown ids are passed over, and [d1]
    is still read when no repository is left. *)
Example find_by_repo_list_on_store :
  fst (find_by_repo_list ["ghost"; "repo-1"] Mock.store)
  = Returns (List.map project_out_scratchpad [Mock.d1; Mock.d2; Mock.d3; Mock.d4])
  /\ rd_scratchpad Mock.d1 = Some (PyStr "state")
  /\ fst (find_by_repo_list ["ghost"] Mock.store) = Returns [].
Proof. repeat split; reflexivity. Qed.

Example get_distributor_of_deleted_repo :
  fst (get_distributor "repo-1" "d1"
         (mkDb [] (repo_distributors Mock.store) (scheduled_calls Mock.store)))
  = Returns Mock.d1
  /\ fst (get_distributor "repo-1" "nope" Mock.store)
     = Raises (MissingResource {[ "distributor" := "nope" ]}).
Proof. split; reflexivity. Qed.

(** *** Heartbeats *)

Lemma handle_worker_heartbeat_records (name : string) (t : Z)
    (workers : gmap string WorkerWatcher.Worker) :
  WorkerWatcher.recorded_heartbeat name
    (WorkerWatcher.handle_worker_heartbeat (WorkerWatcher.heartbeat name t) workers)
  = Some t.
Proof.
  unfold WorkerWatcher.recorded_heartbeat, WorkerWatcher.handle_worker_heartbeat. simpl.
  destruct (workers !! name) as [w|] eqn:Hw.
  - unfold WorkerWatcher.find_and_modify_last_heartbeat.
    rewrite lookup_alter_eq, Hw. reflexivity.
  - unfold WorkerWatcher.save_worker. simpl. rewrite lookup_insert_eq. reflexivity.
Qed.

(** C2, as the handler has it: after two heartbeats of the same worker
    the record carries the timestamp of the one processed last.
    Processed in the order [t1], [t2] the record ends with [t2];
    processed in the order [t2], [t1] it ends with [t1]. *)
Theorem heartbeat_processed_last_wins (W : string) (t1 t2 : Z)
    (workers : gmap string WorkerWatcher.Worker) :
  WorkerWatcher.recorded_heartbeat W
    (WorkerWatcher.handle_worker_heartbeat (WorkerWatcher.heartbeat W t2)
       (WorkerWatcher.handle_worker_heartbeat (WorkerWatcher.heartbeat W t1) workers))
  = Some t2
  /\ WorkerWatcher.recorded_heartbeat W
       (WorkerWatcher.handle_worker_heartbeat (WorkerWatcher.heartbeat W t1)
          (WorkerWatcher.handle_worker_heartbeat (WorkerWatcher.heartbeat W t2) workers))
     = Some t1.
Proof. split; apply handle_worker_heartbeat_records. Qed.

(** C2 as stated fails: heartbeats of [worker-1] at times 1 and 2,
    processed later one first, leave the record at 1, not at 2. *)
Lemma heartbeat_later_timestamp_overwritten :
  (1 < 2)%Z
  /\ WorkerWatcher.recorded_heartbeat "worker-1"
       (WorkerWatcher.handle_worker_heartbeat (WorkerWatcher.heartbeat "worker-1" 1)
          (WorkerWatcher.handle_worker_heartbeat (WorkerWatcher.heartbeat "worker-1" 2) ∅))
     = Some 1%Z
  /\ WorkerWatcher.recorded_heartbeat "worker-1"
       (WorkerWatcher.handle_worker_heartbeat (WorkerWatcher.heartbeat "worker-1" 1)
          (WorkerWatcher.handle_worker_heartbeat (WorkerWatcher.heartbeat "worker-1" 2) ∅))
     <> Some 2%Z.
Proof.
  split; [lia|].
  assert (H : WorkerWatcher.recorded_heartbeat "worker-1"
       (WorkerWatcher.handle_worker_heartbeat (WorkerWatcher.heartbeat "worker-1" 1)
          (WorkerWatcher.handle_worker_heartbeat (WorkerWatcher.heartbeat "worker-1" 2) ∅))
     = Some 1%Z) by (vm_compute; reflexivity).
  split; [exact H|]. rewrite H. discriminate.
Qed.

(** *** The binding lifecycle *)

Section Lifecycle.

Variable registry : string -> option (Distributor * gmap string pyval).
Variable to_transfer_repo : Repo -> Repository.
Variable get_working_directory : string.
Variable pulp_exception_args : exn -> list pyval.
Variable save_refusal : list RepoDistributor -> RepoDistributor -> option exn.

Local Abbreviation remove :=
  (remove_distributor registry to_transfer_repo get_working_directory).
Local Abbreviation add :=
  (add_distributor registry to_transfer_repo get_working_directory save_refusal).
Local Abbreviation update :=
  (update_distributor_config registry to_transfer_repo get_working_directory
     pulp_exception_args save_refusal).

(** The steps of [remove_distributor], one case per way out. *)
Lemma remove_distributor_cases (repo_id distributor_id : string) (st : db) :
  remove repo_id distributor_id st
  = match find_one_repo repo_id (repos st) with
    | None => (Raises (MissingResource {[ "repository" := repo_id ]}), st)
    | Some repo =>
        match find_one repo_id distributor_id (repo_distributors st) with
        | None => (Raises (MissingResource {[ "distributor" := distributor_id ]}), st)
        | Some rd =>
            let calls := schedules_without repo_id (rd_id rd) (scheduled_calls st) in
            match registry (rd_distributor_type_id rd) with
            | None =>
                (Raises (PluginNotFound (rd_distributor_type_id rd)),
                 mkDb (repos st) (repo_distributors st) calls)
            | Some (p, pc) =>
                match distributor_removed p
                        (set_working_dir (to_transfer_repo repo) get_working_directory)
                        (mkPluginCallConfiguration pc (rd_config rd)) with
                | Raises e => (Raises e, mkDb (repos st) (repo_distributors st) calls)
                | Returns _ =>
                    (Returns tt,
                     mkDb (repos st) (remove_by_oid (rd_oid rd) (repo_distributors st))
                       calls)
                end
            end
        end
    end.
Proof.
  unfold remove_distributor, get_distributor_by_id. run.
  destruct (find_one_repo repo_id (repos st)) as [repo|]; [|reflexivity].
  destruct (find_one repo_id distributor_id (repo_distributors st)) as [rd|];
    [|reflexivity].
  simpl. destruct (registry (rd_distributor_type_id rd)) as [[p pc]|]; [|reflexivity].
  destruct (distributor_removed p _ _); reflexivity.
Qed.

(** Whatever way [remove_distributor] ends, it adds no binding and
    leaves the repositories alone. *)
Lemma remove_distributor_shrinks (repo_id distributor_id : string) (st : db) :
  incl (repo_distributors (snd (remove repo_id distributor_id st))) (repo_distributors st)
  /\ repos (snd (remove repo_id distributor_id st)) = repos st.
Proof.
  rewrite remove_distributor_cases.
  destruct (find_one_repo repo_id (repos st)) as [repo|]; [|split; [apply incl_refl|done]].
  destruct (find_one repo_id distributor_id (repo_distributors st)) as [rd|];
    [|split; [apply incl_refl|done]].
  simpl. destruct (registry (rd_distributor_type_id rd)) as [[p pc]|];
    [|split; [apply incl_refl|done]].
  destruct (distributor_removed p _ _); simpl; split;
    auto using incl_refl, remove_by_oid_incl.
Qed.

(** C5, as the code has it: [remove_distributor] on a repository that
    does not exist raises [MissingResource] naming the repository and
    nothing else; on an existing repository without that distributor it
    raises [MissingResource] naming the distributor and nothing else
    (the repository is not named); either way the database is left as
    it was. *)
Theorem remove_distributor_missing (repo_id distributor_id : string) (st : db) :
  find_one_repo repo_id (repos st) = None
  \/ find_one repo_id distributor_id (repo_distributors st) = None ->
  remove repo_id distributor_id st
  = (Raises (MissingResource
               match find_one_repo repo_id (repos st) with
               | None => {[ "repository" := repo_id ]}
               | Some _ => {[ "distributor" := distributor_id ]}
               end),
     st).
Proof.
  intros H. rewrite remove_distributor_cases.
  destruct (find_one_repo repo_id (repos st)) as [repo|]; [|reflexivity].
  destruct H as [H|H]; [discriminate|]. rewrite H. reflexivity.
Qed.

(** C6, as the code has it: when the plugin's [distributor_removed]
    raises, [remove_distributor] stops there: the binding documents are
    all still in the store, the schedules of the binding are already
    deleted, and the exception that comes out is the plugin's own, as
    raised, not an execution error wrapped around it. *)
Theorem remove_distributor_callback_raises
    (repo_id distributor_id : string) (st : db)
    (repo : Repo) (rd : RepoDistributor) (p : Distributor) (pc : gmap string pyval)
    (e : exn) :
  find_one_repo repo_id (repos st) = Some repo ->
  find_one repo_id distributor_id (repo_distributors st) = Some rd ->
  registry (rd_distributor_type_id rd) = Some (p, pc) ->
  distributor_removed p
    (set_working_dir (to_transfer_repo repo) get_working_directory)
    (mkPluginCallConfiguration pc (rd_config rd)) = Raises e ->
  remove repo_id distributor_id st
  = (Raises e,
     mkDb (repos st) (repo_distributors st)
       (schedules_without repo_id distributor_id (scheduled_calls st))).
Proof.
  intros Hrepo Hrd Hreg Hcb. rewrite remove_distributor_cases, Hrepo, Hrd.
  simpl. rewrite Hreg, Hcb.
  apply find_one_Some in Hrd as (_ & _ & ->). reflexivity.
Qed.


(** The steps of [add_distributor], one case per way out. *)
Lemma add_distributor_cases (uuid4 : string) (oid : N)
    (repo_id distributor_type_id : string)
    (repo_plugin_config : option (gmap string pyval)) (auto_publish : pyval)
    (distributor_id : option string) (st : db) :
  add uuid4 oid repo_id distributor_type_id repo_plugin_config auto_publish
    distributor_id st
  = match find_one_repo repo_id (repos st) with
    | None => (Raises (MissingResource {[ "repository" := repo_id ]}), st)
    | Some repo =>
    match registry distributor_type_id with
    | None => (Raises (InvalidValue ["distributor_type_id"]), st)
    | Some (p, pc) =>
    match assigned_id uuid4 distributor_id with
    | None => (Raises (InvalidValue ["distributor_id"]), st)
    | Some new_id =>
        let clean_config := without_None <$> repo_plugin_config in
        let call_config := mkPluginCallConfiguration pc clean_config in
        match validate_config p (to_transfer_repo repo) call_config
                (mkRepoConfigConduit distributor_type_id) with
        | Raises e => (Raises e, st)
        | Returns result =>
        match normalize result with
        | Raises e => (Raises e, st)
        | Returns checked =>
            if truthy (fst checked)
            then
              match remove_old registry to_transfer_repo get_working_directory
                      repo_id new_id st with
              | (Raises e, st1) => (Raises e, st1)
              | (Returns _, st1) =>
                  match distributor_added p (to_transfer_repo repo) call_config with
                  | Raises _ => (Raises PulpExecutionException, st1)
                  | Returns _ =>
                      let distributor :=
                        new_RepoDistributor oid repo_id new_id distributor_type_id
                          clean_config auto_publish in
                      match save_refusal (repo_distributors st1) distributor with
                      | Some e => (Raises e, st1)
                      | None =>
                          (Returns distributor,
                           mkDb (repos st1) (save distributor (repo_distributors st1))
                             (scheduled_calls st1))
                      end
                  end
              end
            else (Raises (PulpDataException (snd checked)), st)
        end
        end
    end
    end
    end.
Proof.
  unfold add_distributor, is_valid_distributor, get_distributor_by_id, assigned_id,
    remove_old.
  run.
  destruct (find_one_repo repo_id (repos st)) as [repo|]; [|reflexivity].
  destruct (registry distributor_type_id) as [[p pc]|]; [|reflexivity].
  simpl.
  assert (Hclean : match repo_plugin_config with
                   | Some config => Some (without_None config)
                   | None => None
                   end = without_None <$> repo_plugin_config)
    by (destruct repo_plugin_config; reflexivity).
  rewrite Hclean. clear Hclean.
  destruct distributor_id as [given|]; simpl.
  - destruct (is_distributor_id_valid given); simpl; [|reflexivity].
    destruct (validate_config p _ _ _) as [result|e]; [|reflexivity].
    destruct (normalize result) as [checked|e]; [|reflexivity].
    destruct (truthy _); simpl; [|reflexivity].
    destruct (remove_distributor _ _ _ repo_id given st) as [[u|e] st1].
    + destruct (distributor_added p _ _); [|reflexivity].
      simpl. destruct (save_refusal _ _); reflexivity.
    + destruct e; try reflexivity.
      destruct (distributor_added p _ _); [|reflexivity].
      simpl. destruct (save_refusal _ _); reflexivity.
  - destruct (validate_config p _ _ _) as [result|e]; [|reflexivity].
    destruct (normalize result) as [checked|e]; [|reflexivity].
    destruct (truthy _); simpl; [|reflexivity].
    destruct (remove_distributor _ _ _ repo_id uuid4 st) as [[u|e] st1].
    + destruct (distributor_added p _ _); [|reflexivity].
      simpl. destruct (save_refusal _ _); reflexivity.
    + destruct e; try reflexivity.
      destruct (distributor_added p _ _); [|reflexivity].
      simpl. destruct (save_refusal _ _); reflexivity.
Qed.

Lemma remove_old_shrinks (repo_id distributor_id : string) (st : db) :
  incl (repo_distributors
          (snd (remove_old registry to_transfer_repo get_working_directory
                  repo_id distributor_id st)))
       (repo_distributors st).
Proof.
  unfold remove_old, try_except.
  destruct (remove_distributor_shrinks repo_id distributor_id st) as [Hincl _].
  destruct (remove repo_id distributor_id st) as [[u|e] st1]; [exact Hincl|].
  destruct e; exact Hincl.
Qed.

(** The steps of [update_distributor_config], one case per way out. *)
Lemma update_distributor_config_cases (repo_id distributor_id : string)
    (auto_publish : pyval) (st : db) (delta : gmap string pyval) :
  update repo_id distributor_id auto_publish (st, delta)
  = match find_one_repo repo_id (repos st) with
    | None => (Raises (MissingResource {[ "repository" := repo_id ]}), (st, delta))
    | Some repo =>
    match find_one repo_id distributor_id (repo_distributors st) with
    | None => (Raises (MissingResource {[ "distributor" := distributor_id ]}), (st, delta))
    | Some rd =>
    match registry (rd_distributor_type_id rd) with
    | None => (Raises (PluginNotFound (rd_distributor_type_id rd)), (st, delta))
    | Some (p, pc) =>
    match rd_config rd with
    | None => (Raises (TypeError "'NoneType' object is not iterable"), (st, delta))
    | Some stored =>
        let merged := fst (merge_delta stored delta) in
        let left_over := snd (merge_delta stored delta) in
        let verdict :=
          match validate_config p
                  (set_working_dir (to_transfer_repo repo) get_working_directory)
                  (mkPluginCallConfiguration pc (Some merged))
                  (mkRepoConfigConduit (rd_distributor_type_id rd)) with
          | Raises e => Raises (PulpDataException (PyTuple (args pulp_exception_args e)))
          | Returns result =>
              match normalize result with
              | Raises e =>
                  Raises (PulpDataException (PyTuple (args pulp_exception_args e)))
              | Returns checked => Returns checked
              end
          end in
        match verdict with
        | Raises e => (Raises e, (st, left_over))
        | Returns checked =>
            if truthy (fst checked)
            then
              if is_None auto_publish
              then
                let saved := set_config rd merged in
                match save_refusal (repo_distributors st) saved with
                | Some e => (Raises e, (st, left_over))
                | None =>
                    (Returns saved,
                     (mkDb (repos st) (save saved (repo_distributors st))
                        (scheduled_calls st),
                      left_over))
                end
              else if isinstance_bool auto_publish
              then
                let saved := set_config (set_auto_publish rd auto_publish) merged in
                match save_refusal (repo_distributors st) saved with
                | Some e => (Raises e, (st, left_over))
                | None =>
                    (Returns saved,
                     (mkDb (repos st) (save saved (repo_distributors st))
                        (scheduled_calls st),
                      left_over))
                end
              else (Raises (InvalidValue ["auto_publish"]), (st, left_over))
            else (Raises (PulpDataException (snd checked)), (st, left_over))
        end
    end
    end
    end
    end.
Proof.
  unfold update_distributor_config, get_distributor_by_id, merge_delta, dict_copy.
  run.
  destruct (find_one_repo repo_id (repos st)) as [repo|]; [|reflexivity].
  destruct (find_one repo_id distributor_id (repo_distributors st)) as [rd|];
    [|reflexivity].
  destruct (registry (rd_distributor_type_id rd)) as [[p pc]|]; [|reflexivity].
  destruct (rd_config rd) as [stored|]; [|reflexivity].
  simpl.
  destruct (validate_config p _ _ _) as [result|e]; [|reflexivity].
  destruct (normalize result) as [checked|e]; [|reflexivity].
  destruct (truthy _); [|reflexivity].
  destruct (is_None auto_publish); simpl.
  - destruct (save_refusal _ _); reflexivity.
  - destruct (isinstance_bool auto_publish); [|reflexivity].
    simpl. destruct (save_refusal _ _); reflexivity.
Qed.

Lemma turned_down_normalize (result message : pyval) :
  turned_down result message -> normalize result = Returns (PyBool false, message).
Proof. intros [[-> ->] | ->]; reflexivity. Qed.

(** C1, as the code has it: when the plugin's [distributor_added]
    raises, [add_distributor] fails with [PulpExecutionException] and
    the new binding document is not saved: the database is left as the
    replacement step left it, so it holds no binding that was not there
    before the call, and if there was no binding under that repository
    and id before, there is none afterwards. *)
Theorem add_distributor_callback_raises
    (uuid4 : string) (oid : N) (repo_id distributor_type_id : string)
    (repo_plugin_config : option (gmap string pyval)) (auto_publish : pyval)
    (distributor_id : option string) (st st1 : db)
    (repo : Repo) (p : Distributor) (pc : gmap string pyval)
    (new_id : string) (result : pyval) (e : exn) :
  find_one_repo repo_id (repos st) = Some repo ->
  registry distributor_type_id = Some (p, pc) ->
  assigned_id uuid4 distributor_id = Some new_id ->
  validate_config p (to_transfer_repo repo)
    (mkPluginCallConfiguration pc (without_None <$> repo_plugin_config))
    (mkRepoConfigConduit distributor_type_id) = Returns result ->
  accepted result = true ->
  remove_old registry to_transfer_repo get_working_directory repo_id new_id st
  = (Returns tt, st1) ->
  distributor_added p (to_transfer_repo repo)
    (mkPluginCallConfiguration pc (without_None <$> repo_plugin_config)) = Raises e ->
  add uuid4 oid repo_id distributor_type_id repo_plugin_config auto_publish
    distributor_id st
  = (Raises PulpExecutionException, st1)
  /\ incl (repo_distributors st1) (repo_distributors st)
  /\ (find_one repo_id new_id (repo_distributors st) = None ->
      find_one repo_id new_id (repo_distributors st1) = None).
Proof.
  intros Hrepo Hreg Hid Hval Hacc Hold Hadded.
  assert (Hincl : incl (repo_distributors st1) (repo_distributors st)).
  { pose proof (remove_old_shrinks repo_id new_id st) as H.
    rewrite Hold in H. exact H. }
  split; [|split; [exact Hincl | apply find_one_None_incl; exact Hincl]].
  rewrite add_distributor_cases, Hrepo, Hreg, Hid. simpl. rewrite Hval.
  unfold accepted in Hacc.
  destruct (normalize result) as [checked|]; [|discriminate].
  rewrite Hacc, Hold, Hadded. reflexivity.
Qed.

(** C3: when [validate_config] returns [False] or [(False, message)],
    [add_distributor] and [update_distributor_config] raise
    [PulpDataException] with the plugin's message ([None] for the bare
    [False]) and leave the database exactly as it was; for
    [add_distributor] that includes any binding already stored under the
    same id, since validation comes before the replacement. *)
Theorem rejected_configuration_changes_nothing :
  (forall (uuid4 : string) (oid : N) (repo_id distributor_type_id : string)
          (repo_plugin_config : option (gmap string pyval)) (auto_publish : pyval)
          (distributor_id : option string) (st : db)
          (repo : Repo) (p : Distributor) (pc : gmap string pyval)
          (new_id : string) (result message : pyval),
      find_one_repo repo_id (repos st) = Some repo ->
      registry distributor_type_id = Some (p, pc) ->
      assigned_id uuid4 distributor_id = Some new_id ->
      validate_config p (to_transfer_repo repo)
        (mkPluginCallConfiguration pc (without_None <$> repo_plugin_config))
        (mkRepoConfigConduit distributor_type_id) = Returns result ->
      turned_down result message ->
      add uuid4 oid repo_id distributor_type_id repo_plugin_config auto_publish
        distributor_id st
      = (Raises (PulpDataException message), st))
  /\
  (forall (repo_id distributor_id : string) (auto_publish : pyval) (st : db)
          (delta : gmap string pyval)
          (repo : Repo) (rd : RepoDistributor) (p : Distributor)
          (pc stored : gmap string pyval) (result message : pyval),
      find_one_repo repo_id (repos st) = Some repo ->
      find_one repo_id distributor_id (repo_distributors st) = Some rd ->
      registry (rd_distributor_type_id rd) = Some (p, pc) ->
      rd_config rd = Some stored ->
      validate_config p
        (set_working_dir (to_transfer_repo repo) get_working_directory)
        (mkPluginCallConfiguration pc (Some (fst (merge_delta stored delta))))
        (mkRepoConfigConduit (rd_distributor_type_id rd)) = Returns result ->
      turned_down result message ->
      update repo_id distributor_id auto_publish (st, delta)
      = (Raises (PulpDataException message), (st, snd (merge_delta stored delta)))).
Proof.
  split.
  - intros * Hrepo Hreg Hid Hval Hdown.
    rewrite add_distributor_cases, Hrepo, Hreg, Hid. simpl.
    rewrite Hval, (turned_down_normalize _ _ Hdown). reflexivity.
  - intros * Hrepo Hrd Hreg Hcfg Hval Hdown.
    rewrite update_distributor_config_cases, Hrepo, Hrd, Hreg, Hcfg. cbv zeta.
    rewrite Hval, (turned_down_normalize _ _ Hdown). reflexivity.
Qed.

(** C7, as the code has it: when [validate_config] itself raises,
    [update_distributor_config] raises [PulpDataException] built from
    the exception's [args], while [add_distributor] lets the plugin's
    exception through as raised, without wrapping it; neither changes
    the database. *)
Theorem validate_config_raises :
  (forall (uuid4 : string) (oid : N) (repo_id distributor_type_id : string)
          (repo_plugin_config : option (gmap string pyval)) (auto_publish : pyval)
          (distributor_id : option string) (st : db)
          (repo : Repo) (p : Distributor) (pc : gmap string pyval)
          (new_id : string) (e : exn),
      find_one_repo repo_id (repos st) = Some repo ->
      registry distributor_type_id = Some (p, pc) ->
      assigned_id uuid4 distributor_id = Some new_id ->
      validate_config p (to_transfer_repo repo)
        (mkPluginCallConfiguration pc (without_None <$> repo_plugin_config))
        (mkRepoConfigConduit distributor_type_id) = Raises e ->
      add uuid4 oid repo_id distributor_type_id repo_plugin_config auto_publish
        distributor_id st
      = (Raises e, st))
  /\
  (forall (repo_id distributor_id : string) (auto_publish : pyval) (st : db)
          (delta : gmap string pyval)
          (repo : Repo) (rd : RepoDistributor) (p : Distributor)
          (pc stored : gmap string pyval) (e : exn),
      find_one_repo repo_id (repos st) = Some repo ->
      find_one repo_id distributor_id (repo_distributors st) = Some rd ->
      registry (rd_distributor_type_id rd) = Some (p, pc) ->
      rd_config rd = Some stored ->
      validate_config p
        (set_working_dir (to_transfer_repo repo) get_working_directory)
        (mkPluginCallConfiguration pc (Some (fst (merge_delta stored delta))))
        (mkRepoConfigConduit (rd_distributor_type_id rd)) = Raises e ->
      update repo_id distributor_id auto_publish (st, delta)
      = (Raises (PulpDataException (PyTuple (args pulp_exception_args e))),
         (st, snd (merge_delta stored delta)))).
Proof.
  split.
  - intros * Hrepo Hreg Hid Hval.
    rewrite add_distributor_cases, Hrepo, Hreg, Hid. simpl.
    rewrite Hval. reflexivity.
  - intros * Hrepo Hrd Hreg Hcfg Hval.
    rewrite update_distributor_config_cases, Hrepo, Hrd, Hreg, Hcfg. cbv zeta.
    rewrite Hval. reflexivity.
Qed.

(** C8: when [add_distributor] is given a configuration and returns,
    the binding it has saved carries that configuration with every key
    mapped to [None] left out, and no key mapped to [None]; the plugin
    validated that stripped configuration, before anything was saved. *)
Theorem add_distributor_strips_None
    (uuid4 : string) (oid : N) (repo_id distributor_type_id : string)
    (config : gmap string pyval) (auto_publish : pyval)
    (distributor_id : option string) (st st' : db) (saved : RepoDistributor) :
  add uuid4 oid repo_id distributor_type_id (Some config) auto_publish
    distributor_id st
  = (Returns saved, st') ->
  rd_config saved = Some (without_None config)
  /\ In saved (repo_distributors st')
  /\ (forall k : string, without_None config !! k <> Some PyNone)
  /\ (forall (k : string) (v : pyval),
        without_None config !! k = Some v <-> config !! k = Some v /\ v <> PyNone)
  /\ (exists (repo : Repo) (p : Distributor) (pc : gmap string pyval) (result : pyval),
        find_one_repo repo_id (repos st) = Some repo
        /\ registry distributor_type_id = Some (p, pc)
        /\ validate_config p (to_transfer_repo repo)
             (mkPluginCallConfiguration pc (Some (without_None config)))
             (mkRepoConfigConduit distributor_type_id) = Returns result
        /\ accepted result = true).
Proof.
  intros Hadd. rewrite add_distributor_cases in Hadd.
  destruct (find_one_repo repo_id (repos st)) as [repo|] eqn:Hrepo; [|discriminate].
  destruct (registry distributor_type_id) as [[p pc]|] eqn:Hreg; [|discriminate].
  destruct (assigned_id uuid4 distributor_id) as [new_id|]; [|discriminate].
  cbv zeta in Hadd. simpl fmap in Hadd.
  destruct (validate_config p _ _ _) as [result|] eqn:Hval; [|discriminate].
  destruct (normalize result) as [checked|] eqn:Hnorm; [|discriminate].
  destruct (truthy (fst checked)) eqn:Htrue; [|discriminate].
  destruct (remove_old _ _ _ repo_id new_id st) as [[u|] st1]; [|discriminate].
  destruct (distributor_added p _ _); [|discriminate].
  destruct (save_refusal _ _); [discriminate|].
  injection Hadd as <- <-.
  split; [reflexivity|]. split; [apply save_In|].
  split; [apply without_None_no_None|]. split; [apply without_None_lookup|].
  exists repo, p, pc, result. repeat split; try assumption.
  unfold accepted. rewrite Hnorm. exact Htrue.
Qed.

Lemma merge_delta_lookup (stored delta : gmap string pyval) (k : string) :
  fst (merge_delta stored delta) !! k
  = match delta !! k with
    | Some v => if is_None v then None else Some v
    | None => stored !! k
    end
  /\ snd (merge_delta stored delta) !! k
     = match delta !! k with
       | Some v => if is_None v then None else Some v
       | None => None
       end.
Proof.
  unfold merge_delta, dict_update. cbn [fst snd].
  rewrite lookup_union.
  destruct (pop_each_lookup (unset_property_names delta) stored delta k) as [-> ->].
  destruct (decide (k ∈ unset_property_names delta)) as [Hin|Hnin].
  - apply elem_of_unset_property_names in Hin. rewrite Hin. split; reflexivity.
  - rewrite elem_of_unset_property_names in Hnin.
    destruct (delta !! k) as [v|], (stored !! k) as [w|];
      try (split; reflexivity);
      destruct v; try (split; reflexivity); congruence.
Qed.

(** C4: an update of an existing binding that the plugin accepts and
    the database does not refuse to store saves, as the binding's
    configuration, the stored configuration with the delta applied: a
    key the delta maps to [None] is gone, a key the delta maps to
    anything else has the delta's value, and any other key keeps its
    stored value.  The keys mapped to [None] are also taken out of the
    caller's delta, and the plugin validates the merged configuration.
    These are all the updates that return. *)
Theorem update_distributor_config_merges
    (repo_id distributor_id : string) (auto_publish : pyval) (st : db)
    (delta : gmap string pyval)
    (repo : Repo) (rd : RepoDistributor) (p : Distributor)
    (pc stored : gmap string pyval) (result : pyval) :
  find_one_repo repo_id (repos st) = Some repo ->
  find_one repo_id distributor_id (repo_distributors st) = Some rd ->
  registry (rd_distributor_type_id rd) = Some (p, pc) ->
  rd_config rd = Some stored ->
  validate_config p
    (set_working_dir (to_transfer_repo repo) get_working_directory)
    (mkPluginCallConfiguration pc (Some (fst (merge_delta stored delta))))
    (mkRepoConfigConduit (rd_distributor_type_id rd)) = Returns result ->
  accepted result = true ->
  is_None auto_publish = true \/ isinstance_bool auto_publish = true ->
  save_refusal (repo_distributors st)
    (set_config
       (if is_None auto_publish then rd else set_auto_publish rd auto_publish)
       (fst (merge_delta stored delta)))
  = None ->
  exists (saved : RepoDistributor) (st' : db),
    update repo_id distributor_id auto_publish (st, delta)
    = (Returns saved, (st', snd (merge_delta stored delta)))
    /\ find_one repo_id distributor_id (repo_distributors st') = Some saved
    /\ rd_config saved = Some (fst (merge_delta stored delta))
    /\ (forall k : string,
          fst (merge_delta stored delta) !! k
          = match delta !! k with
            | Some v => if is_None v then None else Some v
            | None => stored !! k
            end)
    /\ (forall k : string,
          snd (merge_delta stored delta) !! k
          = match delta !! k with
            | Some v => if is_None v then None else Some v
            | None => None
            end).
Proof.
  intros Hrepo Hrd Hreg Hcfg Hval Hacc Hap Hstored.
  rewrite update_distributor_config_cases, Hrepo, Hrd, Hreg, Hcfg. cbv zeta.
  rewrite Hval. unfold accepted in Hacc.
  destruct (normalize result) as [checked|]; [|discriminate]. rewrite Hacc.
  assert (Hm : matches repo_id distributor_id rd = true)
    by (apply find_some in Hrd; tauto).
  destruct (is_None auto_publish) eqn:Hnone.
  - rewrite Hstored.
    eexists _, _. split; [reflexivity|]. split; [|split; [reflexivity|]].
    + simpl. apply (find_one_save _ _ _ rd); [exact Hrd|reflexivity|exact Hm].
    + split; intros k; apply merge_delta_lookup.
  - destruct Hap as [Hap|Hap]; [discriminate|]. rewrite Hap, Hstored.
    eexists _, _. split; [reflexivity|]. split; [|split; [reflexivity|]].
    + simpl. apply (find_one_save _ _ _ rd); [exact Hrd|reflexivity|exact Hm].
    + split; intros k; apply merge_delta_lookup.
Qed.

End Lifecycle.

(** *** The properties at work on the stand-ins *)

(** C1 at work: adding a binding over the existing [d1] of [repo-1],
    with a plugin whose [distributor_added] raises: [d1] and its schedule
    are gone, and nothing is saved in their place. *)
Lemma add_distributor_callback_raises_witness :
  distributor_added Mock.added_raises (Mock.to_transfer_repo (mkRepo "repo-1" ∅))
    (mkPluginCallConfiguration ∅ (without_None <$> Some ∅))
  = Raises (PyException [])
  /\ Mock.add "uuid" 9%N "repo-1" "mock-added-raises" (Some ∅) (PyBool false)
       (Some "d1") Mock.store
     = (Raises PulpExecutionException,
        mkDb [mkRepo "repo-1" ∅] [Mock.d2; Mock.d3; Mock.d4]
          [mkScheduledCall "s2" "repo-1" "d2"])
  /\ incl [Mock.d2; Mock.d3; Mock.d4] (repo_distributors Mock.store)
  /\ (find_one "repo-1" "d1" (repo_distributors Mock.store) = None ->
      find_one "repo-1" "d1" [Mock.d2; Mock.d3; Mock.d4] = None).
Proof.
  split; [reflexivity|].
  apply (add_distributor_callback_raises Mock.registry Mock.to_transfer_repo
           Mock.working_directory overflow_refusal "uuid" 9%N "repo-1" "mock-added-raises" (Some ∅)
           (PyBool false) (Some "d1") Mock.store
           (mkDb [mkRepo "repo-1" ∅] [Mock.d2; Mock.d3; Mock.d4]
              [mkScheduledCall "s2" "repo-1" "d2"])
           (mkRepo "repo-1" ∅) Mock.added_raises ∅ "d1" (PyBool true)
           (PyException []));
    reflexivity.
Defined.

(** C1 as stated fails: after an [add_distributor] whose
    [distributor_added] raised, there is no binding stored under the
    repository and id it was adding, neither for a new id ([d9]) nor for
    one that was bound before ([d1], which the replacement step has
    removed). *)
Lemma add_distributor_failed_callback_saves_nothing :
  (fst (Mock.add "uuid" 9%N "repo-1" "mock-added-raises" (Some ∅) (PyBool false)
          (Some "d9") Mock.store)
   = Raises PulpExecutionException
   /\ find_one "repo-1" "d9"
        (repo_distributors
           (snd (Mock.add "uuid" 9%N "repo-1" "mock-added-raises" (Some ∅)
                   (PyBool false) (Some "d9") Mock.store)))
      = None)
  /\ (fst (Mock.add "uuid" 9%N "repo-1" "mock-added-raises" (Some ∅) (PyBool false)
             (Some "d1") Mock.store)
      = Raises PulpExecutionException
      /\ find_one "repo-1" "d1"
           (repo_distributors
              (snd (Mock.add "uuid" 9%N "repo-1" "mock-added-raises" (Some ∅)
                      (PyBool false) (Some "d1") Mock.store)))
         = None).
Proof. vm_compute. repeat split; reflexivity. Qed.

(** C3 at work: a plugin that returns [(False, 'foo')], on an add over
    the existing [d1] and on an update of [d3]. *)
Lemma rejected_configuration_changes_nothing_witness :
  turned_down (PyTuple [PyBool false; PyStr "foo"]) (PyStr "foo")
  /\ Mock.add "uuid" 9%N "repo-1" "mock-rejecting" (Some ∅) (PyBool false)
       (Some "d1") Mock.store
     = (Raises (PulpDataException (PyStr "foo")), Mock.store)
  /\ Mock.update "repo-1" "d3" PyNone (Mock.store, {[ "a" := PyStr "A" ]})
     = (Raises (PulpDataException (PyStr "foo")),
        (Mock.store, snd (merge_delta ∅ {[ "a" := PyStr "A" ]}))).
Proof.
  assert (Hdown : turned_down (PyTuple [PyBool false; PyStr "foo"]) (PyStr "foo"))
    by (right; reflexivity).
  split; [exact Hdown|]. split.
  - apply (proj1 (rejected_configuration_changes_nothing Mock.registry
                    Mock.to_transfer_repo Mock.working_directory Mock.exception_args overflow_refusal)
             "uuid" 9%N "repo-1" "mock-rejecting" (Some ∅) (PyBool false) (Some "d1")
             Mock.store (mkRepo "repo-1" ∅) Mock.rejecting ∅ "d1"
             (PyTuple [PyBool false; PyStr "foo"]) (PyStr "foo"));
      first [exact Hdown | reflexivity].
  - apply (proj2 (rejected_configuration_changes_nothing Mock.registry
                    Mock.to_transfer_repo Mock.working_directory Mock.exception_args overflow_refusal)
             "repo-1" "d3" PyNone Mock.store {[ "a" := PyStr "A" ]}
             (mkRepo "repo-1" ∅) Mock.d3 Mock.rejecting ∅ ∅
             (PyTuple [PyBool false; PyStr "foo"]) (PyStr "foo"));
      first [exact Hdown | reflexivity].
Defined.

Lemma store_takes_updated_d1 :
  overflow_refusal (repo_distributors Mock.store)
    (set_config
       (if is_None PyNone then Mock.d1 else set_auto_publish Mock.d1 PyNone)
       (fst (merge_delta {[ "a" := PyStr "a"; "b" := PyStr "b"; "c" := PyStr "c" ]}
               {[ "a" := PyStr "A"; "b" := PyNone; "d" := PyStr "D" ]})))
  = None.
Proof. vm_compute. reflexivity. Qed.

(** C4 at work: the delta [{a: 'A', b: None, d: 'D'}] on [d1], whose
    stored configuration is [{a: 'a', b: 'b', c: 'c'}]. *)
Lemma update_distributor_config_merges_witness :
  exists (saved : RepoDistributor) (st' : db),
    Mock.update "repo-1" "d1" PyNone
      (Mock.store, {[ "a" := PyStr "A"; "b" := PyNone; "d" := PyStr "D" ]})
    = (Returns saved, (st', {[ "a" := PyStr "A"; "d" := PyStr "D" ]}))
    /\ find_one "repo-1" "d1" (repo_distributors st') = Some saved
    /\ rd_config saved
       = Some {[ "a" := PyStr "A"; "c" := PyStr "c"; "d" := PyStr "D" ]}.
Proof.
  destruct (update_distributor_config_merges Mock.registry Mock.to_transfer_repo
              Mock.working_directory Mock.exception_args overflow_refusal "repo-1" "d1" PyNone
              Mock.store {[ "a" := PyStr "A"; "b" := PyNone; "d" := PyStr "D" ]}
              (mkRepo "repo-1" ∅) Mock.d1 Mock.distributor ∅
              {[ "a" := PyStr "a"; "b" := PyStr "b"; "c" := PyStr "c" ]}
              (PyBool true) eq_refl eq_refl eq_refl eq_refl eq_refl eq_refl
              (or_introl eq_refl) store_takes_updated_d1)
    as (saved & st' & Hrun & Hfind & Hcfg & _).
  exists saved, st'. split; [|split].
  - unfold Mock.update. rewrite Hrun. vm_compute. reflexivity.
  - exact Hfind.
  - rewrite Hcfg. vm_compute. reflexivity.
Defined.

(** C5 at work: a repository that does not exist, and an existing
    repository without the distributor. *)
Lemma remove_distributor_missing_witness :
  Mock.remove "ghost" "d1" Mock.store
  = (Raises (MissingResource {[ "repository" := "ghost" ]}), Mock.store)
  /\ Mock.remove "repo-1" "nope" Mock.store
     = (Raises (MissingResource {[ "distributor" := "nope" ]}), Mock.store).
Proof.
  split.
  - apply (remove_distributor_missing Mock.registry Mock.to_transfer_repo
             Mock.working_directory "ghost" "d1" Mock.store).
    left. reflexivity.
  - apply (remove_distributor_missing Mock.registry Mock.to_transfer_repo
             Mock.working_directory "repo-1" "nope" Mock.store).
    right. reflexivity.
Defined.

(** C5 as stated fails: removing a distributor that [repo-1], which
    exists, does not have raises [MissingResource] whose resources hold
    the distributor id only; no entry of them names the repository. *)
Lemma remove_distributor_unknown_binding_omits_owner :
  exists resources : gmap string string,
    Mock.remove "repo-1" "nope" Mock.store = (Raises (MissingResource resources), Mock.store)
    /\ is_Some (find_one_repo "repo-1" (repos Mock.store))
    /\ resources !! "distributor" = Some "nope"
    /\ (forall k : string, resources !! k <> Some "repo-1").
Proof.
  exists {[ "distributor" := "nope" ]}. split; [reflexivity|].
  split; [eexists; reflexivity|]. split; [reflexivity|].
  intros k Hk. apply lookup_singleton_Some in Hk as [_ Hk]. discriminate.
Qed.

(** C6 at work: removing [d2], whose plugin raises in
    [distributor_removed]: the plugin's exception comes out as it is,
    [d2] is still stored, and its schedule [s2] is gone. *)
Lemma remove_distributor_callback_raises_witness :
  Mock.remove "repo-1" "d2" Mock.store
  = (Raises (PyException []),
     mkDb (repos Mock.store) (repo_distributors Mock.store)
       (schedules_without "repo-1" "d2" (scheduled_calls Mock.store)))
  /\ schedules_without "repo-1" "d2" (scheduled_calls Mock.store)
     = [mkScheduledCall "s1" "repo-1" "d1"].
Proof.
  split; [|reflexivity].
  apply (remove_distributor_callback_raises Mock.registry Mock.to_transfer_repo
           Mock.working_directory "repo-1" "d2" Mock.store (mkRepo "repo-1" ∅)
           Mock.d2 Mock.removed_raises ∅ (PyException []));
    reflexivity.
Defined.

(** C7 at work: a plugin whose [validate_config] raises
    [Exception('foo')], on an add and on an update of [d4]. *)
Lemma validate_config_raises_witness :
  Mock.add "uuid" 9%N "repo-1" "mock-validate-raises" (Some ∅) (PyBool false)
    (Some "d9") Mock.store
  = (Raises (PyException [PyStr "foo"]), Mock.store)
  /\ Mock.update "repo-1" "d4" PyNone (Mock.store, ∅)
     = (Raises (PulpDataException (PyTuple [PyStr "foo"])),
        (Mock.store, snd (merge_delta ∅ ∅))).
Proof.
  split.
  - apply (proj1 (validate_config_raises Mock.registry Mock.to_transfer_repo
                    Mock.working_directory Mock.exception_args overflow_refusal)
             "uuid" 9%N "repo-1" "mock-validate-raises" (Some ∅) (PyBool false)
             (Some "d9") Mock.store (mkRepo "repo-1" ∅) Mock.validate_raises ∅ "d9"
             (PyException [PyStr "foo"]));
      reflexivity.
  - apply (proj2 (validate_config_raises Mock.registry Mock.to_transfer_repo
                    Mock.working_directory Mock.exception_args overflow_refusal)
             "repo-1" "d4" PyNone Mock.store ∅ (mkRepo "repo-1" ∅) Mock.d4
             Mock.validate_raises ∅ ∅ (PyException [PyStr "foo"]));
      reflexivity.
Defined.

(** C8 at work: adding [d9] with the configuration [{a: 'a', b: None}]
    saves it with the configuration [{a: 'a'}]. *)
Lemma add_distributor_strips_None_witness :
  exists (saved : RepoDistributor) (st' : db),
    Mock.add "uuid" 9%N "repo-1" "mock-distributor"
      (Some {[ "a" := PyStr "a"; "b" := PyNone ]}) (PyBool true) (Some "d9") Mock.store
    = (Returns saved, st')
    /\ rd_config saved = Some {[ "a" := PyStr "a" ]}
    /\ In saved (repo_distributors st').
Proof.
  pose (saved := new_RepoDistributor 9%N "repo-1" "d9" "mock-distributor"
                   (Some {[ "a" := PyStr "a" ]}) (PyBool true)).
  pose (st' := mkDb (repos Mock.store) (repo_distributors Mock.store ++ [saved])
                 (scheduled_calls Mock.store)).
  assert (Hadd : Mock.add "uuid" 9%N "repo-1" "mock-distributor"
                   (Some {[ "a" := PyStr "a"; "b" := PyNone ]}) (PyBool true)
                   (Some "d9") Mock.store
                 = (Returns saved, st'))
    by (vm_compute; reflexivity).
  destruct (add_distributor_strips_None Mock.registry Mock.to_transfer_repo
              Mock.working_directory overflow_refusal "uuid" 9%N "repo-1" "mock-distributor"
              {[ "a" := PyStr "a"; "b" := PyNone ]} (PyBool true) (Some "d9")
              Mock.store st' saved Hadd)
    as (Hcfg & Hin & _).
  exists saved, st'. split; [exact Hadd|]. split; [|exact Hin].
  rewrite Hcfg. vm_compute. reflexivity.
Defined.

(** ** The rest of the manager *)

(** *** More on collections *)

Lemma NoDup_map_In_eq {A B : Type} (f : A -> B) (l : list A) (x y : A) :
  NoDup (List.map f l) -> In x l -> In y l -> f x = f y -> x = y.
Proof.
  induction l as [|a l IH]; simpl; [tauto|].
  intros Hnd Hx Hy Hf. apply NoDup_cons in Hnd as [Hna Hnd].
  destruct Hx as [->|Hx], Hy as [->|Hy].
  - reflexivity.
  - exfalso. apply Hna. rewrite Hf. apply list_elem_of_In, in_map, Hy.
  - exfalso. apply Hna. rewrite <- Hf. apply list_elem_of_In, in_map, Hx.
  - apply IH; assumption.
Qed.

Lemma matches_key (repo_id distributor_id : string) (d : RepoDistributor) :
  matches repo_id distributor_id d = true
  <-> (rd_repo_id d, rd_id d) = (repo_id, distributor_id).
Proof.
  unfold matches. rewrite andb_true_iff, !String.eqb_eq. split.
  - intros [-> ->]. reflexivity.
  - intros [= -> ->]. auto.
Qed.

Lemma matches_identity (repo_id distributor_id : string) (d d' : RepoDistributor) :
  identity d' = identity d ->
  matches repo_id distributor_id d' = matches repo_id distributor_id d.
Proof. unfold identity, matches. intros [= _ -> ->]. reflexivity. Qed.

Lemma find_one_None (repo_id distributor_id : string) (c : list RepoDistributor) :
  find_one repo_id distributor_id c = None
  <-> (forall d, In d c -> matches repo_id distributor_id d = false).
Proof.
  unfold find_one. split.
  - intros H d Hd. exact (find_none _ _ H d Hd).
  - intros H. destruct (find _ c) as [d|] eqn:Hfind; [|reflexivity].
    apply find_some in Hfind as [Hin Hm]. rewrite (H d Hin) in Hm. discriminate.
Qed.

Lemma save_In_inv (doc d : RepoDistributor) (c : list RepoDistributor) :
  In d (save doc c) -> d = doc \/ In d c.
Proof.
  unfold save. destruct (existsb _ c).
  - intros Hd. apply in_map_iff in Hd as [x [Hx Hin]].
    destruct (N.eqb (rd_oid x) (rd_oid doc)); subst; auto.
  - intros Hd. apply in_app_or in Hd as [Hd|[Hd|[]]]; auto.
Qed.

(** Saving a document under a key nothing is stored under leaves the
    key finding that document. *)
Lemma find_one_save_new (repo_id distributor_id : string) (c : list RepoDistributor)
    (doc : RepoDistributor) :
  find_one repo_id distributor_id c = None ->
  matches repo_id distributor_id doc = true ->
  find_one repo_id distributor_id (save doc c) = Some doc.
Proof.
  intros Hnone Hm. rewrite find_one_None in Hnone. unfold save, find_one.
  destruct (existsb _ c) eqn:Hex.
  - apply existsb_exists in Hex as [x [Hin Hx]].
    induction c as [|a c IH]; simpl in *; [tauto|].
    destruct (N.eqb (rd_oid a) (rd_oid doc)) eqn:Ha.
    + rewrite Hm. reflexivity.
    + rewrite (Hnone a) by auto.
      destruct Hin as [->|Hin]; [congruence|]. apply IH; auto.
  - induction c as [|a c IH]; simpl in *.
    + rewrite Hm. reflexivity.
    + rewrite (Hnone a) by auto. apply orb_false_elim in Hex as [_ Hex].
      apply IH; auto.
Qed.

(** Saving a document does not change what another key finds, as long
    as the documents it replaces are not under that key either. *)
Lemma find_one_save_other (repo_id distributor_id : string) (c : list RepoDistributor)
    (doc : RepoDistributor) :
  matches repo_id distributor_id doc = false ->
  (forall d, In d c -> rd_oid d = rd_oid doc -> matches repo_id distributor_id d = false) ->
  find_one repo_id distributor_id (save doc c) = find_one repo_id distributor_id c.
Proof.
  intros Hm Hsame. unfold save, find_one. destruct (existsb _ c).
  - induction c as [|a c IH]; simpl in *; [reflexivity|].
    destruct (N.eqb (rd_oid a) (rd_oid doc)) eqn:Ha.
    + apply N.eqb_eq in Ha. rewrite Hm, (Hsame a) by auto. apply IH. auto.
    + destruct (matches repo_id distributor_id a); [reflexivity|]. apply IH. auto.
  - induction c as [|a c IH]; simpl in *.
    + rewrite Hm. reflexivity.
    + destruct (matches repo_id distributor_id a); [reflexivity|]. apply IH. auto.
Qed.

Lemma save_identities (doc old : RepoDistributor) (c : list RepoDistributor) :
  unique_oids c -> In old c -> identity doc = identity old ->
  List.map identity (save doc c) = List.map identity c.
Proof.
  intros Huniq Hin Hid. unfold save.
  assert (Hoid : rd_oid doc = rd_oid old) by (unfold identity in Hid; congruence).
  assert (Hex : existsb (fun d => N.eqb (rd_oid d) (rd_oid doc)) c = true).
  { apply existsb_exists. exists old. rewrite Hoid, N.eqb_refl. auto. }
  rewrite Hex, map_map. apply map_ext_in. intros a Ha.
  destruct (N.eqb (rd_oid a) (rd_oid doc)) eqn:Hoa; [|reflexivity].
  apply N.eqb_eq in Hoa. rewrite Hid. f_equal.
  apply (NoDup_map_In_eq rd_oid c); auto. congruence.
Qed.

Lemma update_by_oid_identities (oid : N) (change : RepoDistributor -> RepoDistributor)
    (c : list RepoDistributor) :
  (forall d, identity (change d) = identity d) ->
  List.map identity (update_by_oid oid change c) = List.map identity c.
Proof.
  intros Hid. induction c as [|a c IH]; simpl; [reflexivity|].
  destruct (N.eqb (rd_oid a) oid); simpl; [rewrite Hid|rewrite IH]; reflexivity.
Qed.

Lemma update_by_oid_In_inv (oid : N) (change : RepoDistributor -> RepoDistributor)
    (c : list RepoDistributor) (d : RepoDistributor) :
  In d (update_by_oid oid change c) ->
  In d c \/ exists old, In old c /\ rd_oid old = oid /\ d = change old.
Proof.
  induction c as [|a c IH]; simpl; [tauto|].
  destruct (N.eqb (rd_oid a) oid) eqn:Ha; simpl.
  - apply N.eqb_eq in Ha. intros [<-|Hd]; [right; exists a|]; auto.
  - intros [<-|Hd]; [auto|]. destruct (IH Hd) as [H|[old [H1 H2]]]; [auto|].
    right. exists old. auto.
Qed.

(** Changing, by its [_id], the document a key finds leaves the key
    finding the changed document. *)
Lemma find_one_update_by_oid (repo_id distributor_id : string)
    (change : RepoDistributor -> RepoDistributor)
    (c : list RepoDistributor) (d : RepoDistributor) :
  unique_oids c ->
  (forall x, identity (change x) = identity x) ->
  find_one repo_id distributor_id c = Some d ->
  find_one repo_id distributor_id (update_by_oid (rd_oid d) change c) = Some (change d).
Proof.
  intros Huniq Hid. unfold find_one, unique_oids.
  induction c as [|a c IH]; simpl; [discriminate|]. intros Hfind.
  apply NoDup_cons in Huniq as [Hna Huniq].
  destruct (matches repo_id distributor_id a) eqn:Ha.
  - injection Hfind as ->. rewrite N.eqb_refl. simpl.
    rewrite (matches_identity _ _ _ _ (Hid d)), Ha. reflexivity.
  - destruct (N.eqb (rd_oid a) (rd_oid d)) eqn:Hoid.
    + exfalso. apply N.eqb_eq in Hoid. apply Hna. rewrite Hoid.
      apply list_elem_of_In, in_map. apply find_some in Hfind. tauto.
    + simpl. rewrite Ha. apply IH; assumption.
Qed.

(** Changing a document by its [_id] does not change what another key
    finds. *)
Lemma find_one_update_by_oid_other (repo_id distributor_id : string) (oid : N)
    (change : RepoDistributor -> RepoDistributor) (c : list RepoDistributor) :
  (forall x, identity (change x) = identity x) ->
  (forall x, In x c -> rd_oid x = oid -> matches repo_id distributor_id x = false) ->
  find_one repo_id distributor_id (update_by_oid oid change c)
  = find_one repo_id distributor_id c.
Proof.
  intros Hid Hother. unfold find_one.
  induction c as [|a c IH]; simpl; [reflexivity|].
  destruct (N.eqb (rd_oid a) oid) eqn:Hoid; simpl.
  - apply N.eqb_eq in Hoid.
    rewrite (matches_identity _ _ _ _ (Hid a)), (Hother a) by (simpl; auto).
    reflexivity.
  - destruct (matches repo_id distributor_id a); [reflexivity|].
    apply IH. intros x Hx. apply Hother. simpl. auto.
Qed.

Lemma update_by_oid_twice (oid : N) (f g : RepoDistributor -> RepoDistributor)
    (c : list RepoDistributor) :
  (forall x, identity (f x) = identity x) ->
  update_by_oid oid g (update_by_oid oid f c) = update_by_oid oid (fun x => g (f x)) c.
Proof.
  intros Hid. induction c as [|a c IH]; simpl; [reflexivity|].
  destruct (N.eqb (rd_oid a) oid) eqn:Ha; simpl.
  - assert (Hoid : rd_oid (f a) = rd_oid a)
      by (specialize (Hid a); unfold identity in Hid; congruence).
    rewrite Hoid, Ha. reflexivity.
  - rewrite Ha, IH. reflexivity.
Qed.

Lemma update_by_oid_same (oid : N) (f : RepoDistributor -> RepoDistributor)
    (c : list RepoDistributor) :
  (forall x, In x c -> rd_oid x = oid -> f x = x) ->
  update_by_oid oid f c = c.
Proof.
  intros Hf. induction c as [|a c IH]; simpl; [reflexivity|].
  destruct (N.eqb (rd_oid a) oid) eqn:Ha.
  - apply N.eqb_eq in Ha. rewrite Hf by (simpl; auto). reflexivity.
  - rewrite IH; [reflexivity|]. intros x Hx. apply Hf. simpl. auto.
Qed.

Lemma scheduled_In (schedule_id : string) (d : RepoDistributor) :
  scheduled schedule_id d = true <-> In schedule_id (rd_scheduled_publishes d).
Proof.
  unfold scheduled. rewrite existsb_exists. split.
  - intros [x [Hin Hx]]. apply String.eqb_eq in Hx. subst. exact Hin.
  - intros Hin. exists schedule_id. rewrite String.eqb_refl. auto.
Qed.

Lemma pull_push_schedule (schedule_id : string) (d : RepoDistributor) :
  scheduled schedule_id d = false ->
  pull_schedule schedule_id (push_schedule schedule_id d) = d.
Proof.
  intros Hs. destruct d as [oid r i t cfg ap sp l].
  unfold pull_schedule, push_schedule, scheduled in *. simpl in *. f_equal.
  rewrite List.filter_app. simpl. rewrite String.eqb_refl. simpl.
  rewrite app_nil_r. induction l as [|a l IH]; simpl in *; [reflexivity|].
  apply orb_false_elim in Hs as [Ha Hl].
  rewrite String.eqb_sym, Ha. simpl. rewrite IH by exact Hl. reflexivity.
Qed.

(** *** Scratchpad *)

(** The scratchpad written for a stored binding, when the database
    does not refuse to store it, is the one read back, and the binding
    is otherwise as it was. *)
Theorem scratchpad_set_then_get
    (refusal : list RepoDistributor -> RepoDistributor -> option exn)
    (repo_id distributor_id : string) (contents : pyval)
    (st : db) (rd : RepoDistributor) :
  find_one repo_id distributor_id (repo_distributors st) = Some rd ->
  refusal (repo_distributors st) (set_scratchpad rd contents) = None ->
  fst (set_distributor_scratchpad refusal repo_id distributor_id contents st)
  = Returns tt
  /\ fst (get_distributor_scratchpad repo_id distributor_id
            (snd (set_distributor_scratchpad refusal repo_id distributor_id contents st)))
     = Returns contents
  /\ fst (get_distributor repo_id distributor_id
            (snd (set_distributor_scratchpad refusal repo_id distributor_id contents st)))
     = Returns (set_scratchpad rd contents).
Proof.
  intros Hrd Hstored.
  assert (Hfind : find_one repo_id distributor_id
                    (save (set_scratchpad rd contents) (repo_distributors st))
                  = Some (set_scratchpad rd contents)).
  { apply (find_one_save _ _ _ rd); [exact Hrd|reflexivity|].
    apply find_some in Hrd. tauto. }
  unfold set_distributor_scratchpad, get_distributor_scratchpad, get_distributor.
  run_all. rewrite Hrd, Hstored. simpl. rewrite Hfind. auto.
Qed.

(** Without a stored binding, writing the scratchpad does nothing and
    reading it gives [None]; neither raises, whether or not the
    repository exists. *)
Theorem scratchpad_of_missing_binding
    (refusal : list RepoDistributor -> RepoDistributor -> option exn)
    (repo_id distributor_id : string) (contents : pyval) (st : db) :
  find_one repo_id distributor_id (repo_distributors st) = None ->
  set_distributor_scratchpad refusal repo_id distributor_id contents st
  = (Returns tt, st)
  /\ get_distributor_scratchpad repo_id distributor_id st = (Returns PyNone, st).
Proof.
  intros Hnone. unfold set_distributor_scratchpad, get_distributor_scratchpad.
  run_all. rewrite Hnone. auto.
Qed.

(** Writing a scratchpad leaves every other binding as it was: the
    stored documents keep their [_id]s and keys, and any other key
    finds what it found before. *)
Theorem scratchpad_set_touches_one
    (refusal : list RepoDistributor -> RepoDistributor -> option exn)
    (repo_id distributor_id : string) (contents : pyval)
    (st : db) (other_repo other_id : string) :
  unique_oids (repo_distributors st) ->
  (other_repo, other_id) <> (repo_id, distributor_id) ->
  List.map identity
    (repo_distributors
       (snd (set_distributor_scratchpad refusal repo_id distributor_id contents st)))
  = List.map identity (repo_distributors st)
  /\ find_one other_repo other_id
       (repo_distributors
          (snd (set_distributor_scratchpad refusal repo_id distributor_id contents st)))
     = find_one other_repo other_id (repo_distributors st)
  /\ repos (snd (set_distributor_scratchpad refusal repo_id distributor_id contents st))
     = repos st.
Proof.
  intros Huniq Hother. unfold set_distributor_scratchpad. run_all.
  destruct (find_one repo_id distributor_id (repo_distributors st)) as [rd|] eqn:Hrd;
    simpl; [|auto].
  destruct (refusal _ _); simpl; [auto|].
  pose proof (find_one_Some _ _ _ _ Hrd) as (Hin & Hr & Hi).
  split; [|split; [|reflexivity]].
  - apply (save_identities _ rd); auto.
  - apply find_one_save_other.
    + apply not_true_is_false. intros Hm. apply matches_key in Hm. simpl in Hm.
      congruence.
    + intros d Hd Hoid. simpl in Hoid.
      assert (d = rd) by (apply (NoDup_map_In_eq rd_oid (repo_distributors st)); auto).
      subst d. apply not_true_is_false. intros Hm. apply matches_key in Hm. congruence.
Qed.

(** *** Publish schedules *)

Lemma push_schedule_identity (schedule_id : string) (d : RepoDistributor) :
  identity (push_schedule schedule_id d) = identity d.
Proof. reflexivity. Qed.

Lemma pull_schedule_identity (schedule_id : string) (d : RepoDistributor) :
  identity (pull_schedule schedule_id d) = identity d.
Proof. reflexivity. Qed.

Lemma filter_out_absent (schedule_id : string) (l : list string) :
  ~ In schedule_id l ->
  List.filter (fun s => negb (String.eqb s schedule_id)) l = l.
Proof.
  induction l as [|a l IH]; simpl; [reflexivity|]. intros Hnin.
  destruct (String.eqb a schedule_id) eqn:Ha.
  - apply String.eqb_eq in Ha. tauto.
  - simpl. rewrite IH by tauto. reflexivity.
Qed.

(** After [add_publish_schedule] on a stored binding the schedule is
    among the binding's schedules, the ones it had are all still there,
    in order, and a list without repetitions stays without; adding an id
    that is already listed changes nothing. *)
Theorem add_publish_schedule_listed (repo_id distributor_id schedule_id : string)
    (st : db) (rd : RepoDistributor) :
  unique_oids (repo_distributors st) ->
  find_one repo_id distributor_id (repo_distributors st) = Some rd ->
  exists listed : list string,
    fst (add_publish_schedule repo_id distributor_id schedule_id st) = Returns tt
    /\ list_publish_schedules repo_id distributor_id
         (snd (add_publish_schedule repo_id distributor_id schedule_id st))
       = (Returns listed, snd (add_publish_schedule repo_id distributor_id schedule_id st))
    /\ In schedule_id listed
    /\ (listed = rd_scheduled_publishes rd
        \/ listed = (rd_scheduled_publishes rd ++ [schedule_id])%list)
    /\ (NoDup (rd_scheduled_publishes rd) -> NoDup listed)
    /\ (In schedule_id (rd_scheduled_publishes rd) ->
        snd (add_publish_schedule repo_id distributor_id schedule_id st) = st).
Proof.
  intros Huniq Hrd. unfold add_publish_schedule, list_publish_schedules. run_all.
  rewrite Hrd. destruct (scheduled schedule_id rd) eqn:Hs; simpl.
  - rewrite Hrd. exists (rd_scheduled_publishes rd).
    apply scheduled_In in Hs. repeat split; auto.
  - rewrite (find_one_update_by_oid _ _ _ _ _ Huniq
               (push_schedule_identity schedule_id) Hrd).
    exists (rd_scheduled_publishes rd ++ [schedule_id])%list. simpl.
    repeat split; auto.
    + apply in_or_app. right. left. reflexivity.
    + intros Hnd. apply NoDup_app. split; [exact Hnd|]. split.
      * intros x Hx Hx'. apply list_elem_of_In in Hx.
        apply list_elem_of_singleton in Hx'. subst x.
        apply scheduled_In in Hx. congruence.
      * apply NoDup_singleton.
    + intros Hin. apply scheduled_In in Hin. congruence.
Qed.

(** [add_publish_schedule] is idempotent: run again with the same
    arguments, it returns and leaves the database as the first run left
    it. *)
Theorem add_publish_schedule_idempotent (repo_id distributor_id schedule_id : string)
    (st : db) (rd : RepoDistributor) :
  unique_oids (repo_distributors st) ->
  find_one repo_id distributor_id (repo_distributors st) = Some rd ->
  add_publish_schedule repo_id distributor_id schedule_id
    (snd (add_publish_schedule repo_id distributor_id schedule_id st))
  = (Returns tt, snd (add_publish_schedule repo_id distributor_id schedule_id st)).
Proof.
  intros Huniq Hrd. unfold add_publish_schedule. run_all.
  rewrite Hrd. destruct (scheduled schedule_id rd) eqn:Hs; simpl.
  - rewrite Hrd, Hs. reflexivity.
  - rewrite (find_one_update_by_oid _ _ _ _ _ Huniq
               (push_schedule_identity schedule_id) Hrd).
    assert (Hs' : scheduled schedule_id (push_schedule schedule_id rd) = true).
    { apply scheduled_In. simpl. apply in_or_app. right. left. reflexivity. }
    rewrite Hs'. reflexivity.
Qed.

(** After [remove_publish_schedule] on a stored binding the schedule is
    not among the binding's schedules any more, in however many copies
    it was, and the other schedules are all still there, in order;
    removing an id that is not listed changes nothing. *)
Theorem remove_publish_schedule_unlisted (repo_id distributor_id schedule_id : string)
    (st : db) (rd : RepoDistributor) :
  unique_oids (repo_distributors st) ->
  find_one repo_id distributor_id (repo_distributors st) = Some rd ->
  fst (remove_publish_schedule repo_id distributor_id schedule_id st) = Returns tt
  /\ fst (list_publish_schedules repo_id distributor_id
            (snd (remove_publish_schedule repo_id distributor_id schedule_id st)))
     = Returns (List.filter (fun s => negb (String.eqb s schedule_id))
                  (rd_scheduled_publishes rd))
  /\ ~ In schedule_id
         (List.filter (fun s => negb (String.eqb s schedule_id))
            (rd_scheduled_publishes rd))
  /\ (~ In schedule_id (rd_scheduled_publishes rd) ->
      snd (remove_publish_schedule repo_id distributor_id schedule_id st) = st).
Proof.
  intros Huniq Hrd. unfold remove_publish_schedule, list_publish_schedules. run_all.
  rewrite Hrd.
  assert (Hgone : ~ In schedule_id
             (List.filter (fun s => negb (String.eqb s schedule_id))
                (rd_scheduled_publishes rd))).
  { intros Hin. apply filter_In in Hin as [_ Hin].
    rewrite String.eqb_refl in Hin. discriminate. }
  destruct (scheduled schedule_id rd) eqn:Hs; simpl.
  - rewrite (find_one_update_by_oid _ _ _ _ _ Huniq
               (pull_schedule_identity schedule_id) Hrd).
    simpl. repeat split; auto.
    intros Hnin. exfalso. apply Hnin, scheduled_In, Hs.
  - rewrite Hrd. simpl.
    assert (Hnin : ~ In schedule_id (rd_scheduled_publishes rd)).
    { intros Hin. apply scheduled_In in Hin. congruence. }
    rewrite (filter_out_absent _ _ Hnin). repeat split; auto.
Qed.

(** Adding a schedule a stored binding does not have and removing it
    again gives back the database as it was. *)
Theorem add_then_remove_publish_schedule (repo_id distributor_id schedule_id : string)
    (st : db) (rd : RepoDistributor) :
  unique_oids (repo_distributors st) ->
  find_one repo_id distributor_id (repo_distributors st) = Some rd ->
  ~ In schedule_id (rd_scheduled_publishes rd) ->
  remove_publish_schedule repo_id distributor_id schedule_id
    (snd (add_publish_schedule repo_id distributor_id schedule_id st))
  = (Returns tt, st).
Proof.
  intros Huniq Hrd Hnin.
  assert (Hs : scheduled schedule_id rd = false).
  { apply not_true_is_false. intros H. apply Hnin, scheduled_In, H. }
  unfold remove_publish_schedule, add_publish_schedule. run_all.
  rewrite Hrd, Hs. simpl.
  rewrite (find_one_update_by_oid _ _ _ _ _ Huniq
             (push_schedule_identity schedule_id) Hrd).
  assert (Hs' : scheduled schedule_id (push_schedule schedule_id rd) = true).
  { apply scheduled_In. simpl. apply in_or_app. right. left. reflexivity. }
  rewrite Hs'. simpl. f_equal. destruct st as [rs ds cs]. simpl in *. f_equal.
  rewrite update_by_oid_twice by apply push_schedule_identity.
  apply update_by_oid_same. intros x Hx Hoid.
  assert (x = rd).
  { apply (NoDup_map_In_eq rd_oid ds); auto. apply find_one_Some in Hrd. tauto. }
  subst x. apply pull_push_schedule, Hs.
Qed.

(** Without a stored binding the three schedule methods raise
    [MissingResource] naming both the repository, under [repo], and the
    distributor, and change nothing; whether the repository exists plays
    no part. *)
Theorem publish_schedules_of_missing_binding
    (repo_id distributor_id schedule_id : string) (st : db) :
  find_one repo_id distributor_id (repo_distributors st) = None ->
  add_publish_schedule repo_id distributor_id schedule_id st
  = (Raises (MissingResource {[ "repo" := repo_id; "distributor" := distributor_id ]}),
     st)
  /\ remove_publish_schedule repo_id distributor_id schedule_id st
     = (Raises (MissingResource {[ "repo" := repo_id; "distributor" := distributor_id ]}),
        st)
  /\ fst (list_publish_schedules repo_id distributor_id st)
     = Raises (MissingResource {[ "repo" := repo_id; "distributor" := distributor_id ]})
  /\ ({[ "repo" := repo_id; "distributor" := distributor_id ]} : gmap string string)
       !! "repo" = Some repo_id
  /\ ({[ "repo" := repo_id; "distributor" := distributor_id ]} : gmap string string)
       !! "distributor" = Some distributor_id.
Proof.
  intros Hnone.
  unfold add_publish_schedule, remove_publish_schedule, list_publish_schedules.
  run_all. rewrite Hnone. repeat split; reflexivity.
Qed.

(** *** Listing the distributors of a repository *)

(** For a repository that exists, [get_distributors] returns exactly
    the stored bindings of that repository, in stored order and with
    their scratchpads, possibly none at all; the bulk read for that one
    id returns the same bindings without their scratchpads. *)
Theorem get_distributors_of_repo (repo_id : string) (st : db) (repo : Repo) :
  find_one_repo repo_id (repos st) = Some repo ->
  exists found : list RepoDistributor,
    get_distributors repo_id st = (Returns found, st)
    /\ (forall d : RepoDistributor,
          In d found <-> In d (repo_distributors st) /\ rd_repo_id d = repo_id)
    /\ find_by_repo_list [repo_id] st
       = (Returns (List.map project_out_scratchpad found), st).
Proof.
  intros Hrepo. unfold get_distributors, find_by_repo_list. run_all. rewrite Hrepo.
  eexists. split; [reflexivity|]. split.
  - intros d. rewrite filter_In, String.eqb_eq. reflexivity.
  - do 3 f_equal. apply filter_ext. intros d. simpl. apply orb_false_r.
Qed.

(** For a repository that does not exist, [get_distributors] raises
    [MissingResource] naming the repository and changes nothing, also
    when bindings are still stored under that repository id, which
    [get_distributor] goes on returning. *)
Theorem get_distributors_of_missing_repo (repo_id : string) (st : db) :
  find_one_repo repo_id (repos st) = None ->
  get_distributors repo_id st
  = (Raises (MissingResource {[ "repository" := repo_id ]}), st)
  /\ (forall d : RepoDistributor,
        In d (repo_distributors st) -> rd_repo_id d = repo_id ->
        exists first : RepoDistributor,
          get_distributor repo_id (rd_id d) st = (Returns first, st)).
Proof.
  intros Hrepo. unfold get_distributors, get_distributor. run_all. rewrite Hrepo.
  split; [reflexivity|]. intros d Hd Hr.
  destruct (find_one repo_id (rd_id d) (repo_distributors st)) as [first|] eqn:Hfind.
  - exists first. reflexivity.
  - exfalso. rewrite find_one_None in Hfind. specialize (Hfind d Hd).
    unfold matches in Hfind. rewrite Hr, !String.eqb_refl in Hfind. discriminate.
Qed.

(** *** The identifier grammar *)

Lemma without_final_newline_app (body : string) :
  all_id_chars body = true -> body <> "" ->
  without_final_newline body = body
  /\ without_final_newline (body ++ String (ascii_of_nat 10) "") = body.
Proof.
  induction body as [|c rest IH]; [congruence|]. intros Hall _.
  simpl in Hall. apply andb_prop in Hall as [Hc Hrest].
  destruct rest as [|c' rest'].
  - simpl. destruct (Nat.eqb (nat_of_ascii c) 10) eqn:Hnl; [|auto].
    apply Nat.eqb_eq in Hnl. unfold id_char in Hc. rewrite Hnl in Hc. discriminate.
  - destruct IH as [IH1 IH2]; [exact Hrest|discriminate|].
    split.
    + change (without_final_newline (String c (String c' rest')))
        with (String c (without_final_newline (String c' rest'))).
      rewrite IH1. reflexivity.
    + change (String c (String c' rest') ++ String (ascii_of_nat 10) "")
        with (String c (String c' (rest' ++ String (ascii_of_nat 10) ""))).
      change (without_final_newline
                (String c (String c' (rest' ++ String (ascii_of_nat 10) ""))))
        with (String c (without_final_newline
                          (String c' rest' ++ String (ascii_of_nat 10) ""))).
      rewrite IH2. reflexivity.
Qed.

Lemma without_final_newline_cases (s : string) :
  s = without_final_newline s
  \/ s = without_final_newline s ++ String (ascii_of_nat 10) "".
Proof.
  induction s as [|c rest IH]; [left; reflexivity|].
  destruct rest as [|c' rest'].
  - simpl. destruct (Nat.eqb (nat_of_ascii c) 10) eqn:Hnl; [|left; reflexivity].
    right. apply Nat.eqb_eq in Hnl. simpl. f_equal.
    rewrite <- (ascii_nat_embedding c), Hnl. reflexivity.
  - change (without_final_newline (String c (String c' rest')))
      with (String c (without_final_newline (String c' rest'))).
    destruct IH as [IH|IH]; [left; f_equal; exact IH|right].
    transitivity (String c (without_final_newline (String c' rest')
                            ++ String (ascii_of_nat 10) ""));
      [f_equal; exact IH|reflexivity].
Qed.

(** An id is valid exactly when it is a non-empty run of letters,
    digits, underscores and hyphens, or such a run followed by one
    newline. *)
Theorem is_distributor_id_valid_iff (distributor_id : string) :
  is_distributor_id_valid distributor_id = true
  <-> exists body : string,
        body <> "" /\ all_id_chars body = true
        /\ (distributor_id = body
            \/ distributor_id = body ++ String (ascii_of_nat 10) "").
Proof.
  unfold is_distributor_id_valid. split.
  - intros H. apply andb_prop in H as [Hne Hall].
    exists (without_final_newline distributor_id). split; [|split].
    + intros Hempty. rewrite Hempty in Hne. discriminate.
    + exact Hall.
    + apply without_final_newline_cases.
  - intros (body & Hne & Hall & [->| ->]);
      destruct (without_final_newline_app body Hall Hne) as [H1 H2];
      rewrite ?H1, ?H2, Hall, andb_true_r;
      apply negb_true_iff, String.eqb_neq, Hne.
Qed.

(** Adding or removing a schedule leaves every other binding as it
    was: the stored documents keep their [_id]s and keys, whatever the
    outcome, and any other key finds what it found before. *)
Theorem publish_schedule_touches_one (repo_id distributor_id schedule_id : string)
    (st : db) (other_repo other_id : string) :
  unique_oids (repo_distributors st) ->
  (other_repo, other_id) <> (repo_id, distributor_id) ->
  (List.map identity
     (repo_distributors (snd (add_publish_schedule repo_id distributor_id schedule_id st)))
   = List.map identity (repo_distributors st)
   /\ find_one other_repo other_id
        (repo_distributors (snd (add_publish_schedule repo_id distributor_id schedule_id st)))
      = find_one other_repo other_id (repo_distributors st))
  /\ (List.map identity
        (repo_distributors
           (snd (remove_publish_schedule repo_id distributor_id schedule_id st)))
      = List.map identity (repo_distributors st)
      /\ find_one other_repo other_id
           (repo_distributors
              (snd (remove_publish_schedule repo_id distributor_id schedule_id st)))
         = find_one other_repo other_id (repo_distributors st)).
Proof.
  intros Huniq Hother.
  assert (Hkey : forall rd x,
             find_one repo_id distributor_id (repo_distributors st) = Some rd ->
             In x (repo_distributors st) -> rd_oid x = rd_oid rd ->
             matches other_repo other_id x = false).
  { intros rd x Hrd Hx Hoid.
    pose proof (find_one_Some _ _ _ _ Hrd) as (Hin & Hr & Hi).
    assert (x = rd) by (apply (NoDup_map_In_eq rd_oid (repo_distributors st)); auto).
    subst x. apply not_true_is_false. intros Hm. apply matches_key in Hm. congruence. }
  unfold add_publish_schedule, remove_publish_schedule. run_all.
  destruct (find_one repo_id distributor_id (repo_distributors st)) as [rd|] eqn:Hrd;
    simpl; [|auto].
  destruct (scheduled schedule_id rd); simpl; split; auto; split.
  - apply update_by_oid_identities, pull_schedule_identity.
  - apply find_one_update_by_oid_other; [apply pull_schedule_identity|].
    intros x. apply (Hkey rd). reflexivity.
  - apply update_by_oid_identities, push_schedule_identity.
  - apply find_one_update_by_oid_other; [apply push_schedule_identity|].
    intros x. apply (Hkey rd). reflexivity.
Qed.

(** *** Merging a delta *)

(** An empty delta merges to the stored configuration itself, and the
    delta left over from a merge, merged again into its result, changes
    nothing more. *)
Theorem merge_delta_settles (stored delta : gmap string pyval) :
  merge_delta stored ∅ = (stored, ∅)
  /\ merge_delta (fst (merge_delta stored delta)) (snd (merge_delta stored delta))
     = merge_delta stored delta.
Proof.
  split; apply injective_projections; apply map_eq; intros k; cbn [fst snd].
  - destruct (merge_delta_lookup stored ∅ k) as [-> _].
    rewrite lookup_empty. reflexivity.
  - destruct (merge_delta_lookup stored ∅ k) as [_ ->].
    rewrite lookup_empty. reflexivity.
  - destruct (merge_delta_lookup (fst (merge_delta stored delta))
                (snd (merge_delta stored delta)) k) as [-> _].
    destruct (merge_delta_lookup stored delta k) as [-> ->].
    destruct (delta !! k) as [v|]; [|reflexivity].
    destruct v; reflexivity.
  - destruct (merge_delta_lookup (fst (merge_delta stored delta))
                (snd (merge_delta stored delta)) k) as [_ ->].
    destruct (merge_delta_lookup stored delta k) as [_ ->].
    destruct (delta !! k) as [v|]; [|reflexivity].
    destruct v; reflexivity.
Qed.

(** *** More on removing and saving *)

Lemma save_fresh (doc : RepoDistributor) (c : list RepoDistributor) :
  (forall d, In d c -> rd_oid d <> rd_oid doc) ->
  save doc c = (c ++ [doc])%list.
Proof.
  intros Hfresh. unfold save.
  destruct (existsb _ c) eqn:Hex; [|reflexivity].
  apply existsb_exists in Hex as [x [Hin Hx]]. apply N.eqb_eq in Hx.
  exfalso. exact (Hfresh x Hin Hx).
Qed.

Lemma NoDup_map_filter {A B : Type} (f : A -> B) (p : A -> bool) (l : list A) :
  NoDup (List.map f l) -> NoDup (List.map f (List.filter p l)).
Proof.
  induction l as [|a l IH]; simpl; [auto|]. intros Hnd.
  apply NoDup_cons in Hnd as [Hna Hnd]. destruct (p a); simpl; [|auto].
  apply NoDup_cons. split; [|auto]. intros Hin. apply Hna.
  apply list_elem_of_In in Hin. apply list_elem_of_In.
  apply in_map_iff in Hin as [x [Hx Hin]]. apply filter_In in Hin as [Hin _].
  apply in_map_iff. exists x. auto.
Qed.

Lemma find_one_remove_by_oid_gone (repo_id distributor_id : string)
    (c : list RepoDistributor) (old : RepoDistributor) :
  unique_keys c ->
  find_one repo_id distributor_id c = Some old ->
  find_one repo_id distributor_id (remove_by_oid (rd_oid old) c) = None.
Proof.
  intros Huniq Hold. apply find_one_None. intros d Hd.
  apply not_true_is_false. intros Hm.
  pose proof (find_one_Some _ _ _ _ Hold) as (Hin & Hr & Hi).
  assert (d = old).
  { apply (NoDup_map_In_eq (fun d => (rd_repo_id d, rd_id d)) c); auto.
    - apply remove_by_oid_incl in Hd. exact Hd.
    - apply matches_key in Hm. rewrite Hm, Hr, Hi. reflexivity. }
  subst d. apply remove_by_oid_gone in Hd. congruence.
Qed.

Lemma find_one_remove_by_oid_other (repo_id distributor_id : string) (oid : N)
    (c : list RepoDistributor) :
  (forall x, In x c -> rd_oid x = oid -> matches repo_id distributor_id x = false) ->
  find_one repo_id distributor_id (remove_by_oid oid c)
  = find_one repo_id distributor_id c.
Proof.
  intros Hother. unfold find_one, remove_by_oid.
  induction c as [|a c IH]; simpl; [reflexivity|].
  destruct (N.eqb (rd_oid a) oid) eqn:Ha; simpl.
  - apply N.eqb_eq in Ha. rewrite (Hother a) by (simpl; auto).
    apply IH. intros x Hx. apply Hother. simpl. auto.
  - destruct (matches repo_id distributor_id a); [reflexivity|].
    apply IH. intros x Hx. apply Hother. simpl. auto.
Qed.

Lemma unique_keys_append (c : list RepoDistributor) (doc : RepoDistributor) :
  unique_keys c ->
  find_one (rd_repo_id doc) (rd_id doc) c = None ->
  unique_keys (c ++ [doc]).
Proof.
  unfold unique_keys. intros Huniq Hnone. rewrite map_app. apply NoDup_app.
  split; [exact Huniq|]. split; [|apply NoDup_singleton].
  intros key Hkey Hdoc. simpl in Hdoc. apply list_elem_of_singleton in Hdoc. subst key.
  apply list_elem_of_In, in_map_iff in Hkey as [d [Hd Hin]].
  rewrite find_one_None in Hnone. specialize (Hnone d Hin).
  apply not_true_iff_false in Hnone. apply Hnone, matches_key, Hd.
Qed.

(** *** Payloads, and the lifecycle beyond its failures *)

Section Coverage.

Variable registry : string -> option (Distributor * gmap string pyval).
Variable to_transfer_repo : Repo -> Repository.
Variable get_working_directory : string.
Variable pulp_exception_args : exn -> list pyval.
Variable save_refusal : list RepoDistributor -> RepoDistributor -> option exn.
Variable to_transfer_repo_of_None : outcome Repository.

Local Abbreviation remove :=
  (remove_distributor registry to_transfer_repo get_working_directory).
Local Abbreviation replace_old :=
  (remove_old registry to_transfer_repo get_working_directory).
Local Abbreviation add :=
  (add_distributor registry to_transfer_repo get_working_directory save_refusal).
Local Abbreviation update :=
  (update_distributor_config registry to_transfer_repo get_working_directory
     pulp_exception_args save_refusal).
Local Abbreviation payload :=
  (create_bind_payload registry to_transfer_repo get_working_directory
     to_transfer_repo_of_None).

(** For a stored binding of an existing repository with a registered
    plugin, [create_bind_payload] returns what the plugin's
    [create_consumer_payload] returns for the stored configuration, and
    raises [PulpExecutionException] for whatever the plugin raises; the
    database is left as it was. *)
Theorem create_bind_payload_outcome (repo_id distributor_id : string)
    (binding_config : pyval) (st : db)
    (repo : Repo) (rd : RepoDistributor) (p : Distributor) (pc : gmap string pyval) :
  find_one repo_id distributor_id (repo_distributors st) = Some rd ->
  find_one_repo repo_id (repos st) = Some repo ->
  registry (rd_distributor_type_id rd) = Some (p, pc) ->
  payload repo_id distributor_id binding_config st
  = (match create_consumer_payload p
             (set_working_dir (to_transfer_repo repo) get_working_directory)
             (mkPluginCallConfiguration pc (rd_config rd)) binding_config with
     | Returns made => Returns made
     | Raises _ => Raises PulpExecutionException
     end,
     st).
Proof.
  intros Hrd Hrepo Hreg.
  unfold create_bind_payload, get_distributor, get_distributor_by_id. run_all.
  rewrite Hrd. simpl. rewrite Hreg, Hrepo. simpl.
  destruct (create_consumer_payload p _ _ _); reflexivity.
Qed.

(** [create_bind_payload] never writes: whatever its arguments and
    however it ends, the database is left as it was; and without a
    stored binding it raises [MissingResource] naming the distributor
    alone, whether or not the repository exists. *)
Theorem create_bind_payload_never_writes (repo_id distributor_id : string)
    (binding_config : pyval) (st : db) :
  snd (payload repo_id distributor_id binding_config st) = st
  /\ (find_one repo_id distributor_id (repo_distributors st) = None ->
      fst (payload repo_id distributor_id binding_config st)
      = Raises (MissingResource {[ "distributor" := distributor_id ]})).
Proof.
  unfold create_bind_payload, get_distributor, get_distributor_by_id. run_all.
  destruct (find_one repo_id distributor_id (repo_distributors st)) as [rd|];
    simpl; [|auto].
  split; [|discriminate].
  destruct (registry (rd_distributor_type_id rd)) as [[p pc]|]; simpl; [|reflexivity].
  destruct (find_one_repo repo_id (repos st)) as [repo|]; simpl.
  - destruct (create_consumer_payload p _ _ _); reflexivity.
  - destruct to_transfer_repo_of_None as [transfer|e]; simpl; [|reflexivity].
    destruct (create_consumer_payload p _ _ _); reflexivity.
Qed.

(** [add_distributor] checks its arguments in a fixed order and before
    anything is written or any plugin is called: a missing repository
    raises [MissingResource] naming it; else an unregistered type raises
    [InvalidValue] for [distributor_type_id]; else an invalid id raises
    [InvalidValue] for [distributor_id]. *)
Theorem add_distributor_checks_arguments (uuid4 : string) (oid : N)
    (repo_id distributor_type_id : string)
    (repo_plugin_config : option (gmap string pyval)) (auto_publish : pyval)
    (distributor_id : option string) (st : db) :
  find_one_repo repo_id (repos st) = None
  \/ registry distributor_type_id = None
  \/ assigned_id uuid4 distributor_id = None ->
  add uuid4 oid repo_id distributor_type_id repo_plugin_config auto_publish
    distributor_id st
  = (Raises
       match find_one_repo repo_id (repos st), registry distributor_type_id with
       | None, _ => MissingResource {[ "repository" := repo_id ]}
       | Some _, None => InvalidValue ["distributor_type_id"]
       | Some _, Some _ => InvalidValue ["distributor_id"]
       end,
     st).
Proof.
  intros H. rewrite add_distributor_cases.
  destruct (find_one_repo repo_id (repos st)) as [repo|]; [|reflexivity].
  destruct (registry distributor_type_id) as [[p pc]|]; [|reflexivity].
  destruct H as [H|[H|H]]; try discriminate. rewrite H. reflexivity.
Qed.

Lemma remove_old_missing (repo_id distributor_id : string) (st : db) :
  find_one repo_id distributor_id (repo_distributors st) = None ->
  is_Some (find_one_repo repo_id (repos st)) ->
  replace_old repo_id distributor_id st = (Returns tt, st).
Proof.
  intros Hnone [repo Hrepo]. unfold remove_old, try_except.
  rewrite remove_distributor_cases, Hrepo, Hnone. reflexivity.
Qed.

Lemma remove_distributor_returns (repo_id distributor_id : string) (st : db)
    (repo : Repo) (rd : RepoDistributor) (p : Distributor) (pc : gmap string pyval) :
  find_one_repo repo_id (repos st) = Some repo ->
  find_one repo_id distributor_id (repo_distributors st) = Some rd ->
  registry (rd_distributor_type_id rd) = Some (p, pc) ->
  distributor_removed p
    (set_working_dir (to_transfer_repo repo) get_working_directory)
    (mkPluginCallConfiguration pc (rd_config rd)) = Returns tt ->
  remove repo_id distributor_id st
  = (Returns tt,
     mkDb (repos st) (remove_by_oid (rd_oid rd) (repo_distributors st))
       (schedules_without repo_id (rd_id rd) (scheduled_calls st))).
Proof.
  intros Hrepo Hrd Hreg Hcb.
  rewrite remove_distributor_cases, Hrepo, Hrd. simpl. rewrite Hreg, Hcb. reflexivity.
Qed.

(** A [remove_distributor] whose plugin callback returns deletes the
    binding: the key finds nothing afterwards, no binding is added, and
    any other key finds what it found before. *)
Theorem remove_distributor_deletes (repo_id distributor_id : string) (st : db)
    (repo : Repo) (rd : RepoDistributor) (p : Distributor) (pc : gmap string pyval)
    (other_repo other_id : string) :
  unique_keys (repo_distributors st) ->
  unique_oids (repo_distributors st) ->
  find_one_repo repo_id (repos st) = Some repo ->
  find_one repo_id distributor_id (repo_distributors st) = Some rd ->
  registry (rd_distributor_type_id rd) = Some (p, pc) ->
  distributor_removed p
    (set_working_dir (to_transfer_repo repo) get_working_directory)
    (mkPluginCallConfiguration pc (rd_config rd)) = Returns tt ->
  (other_repo, other_id) <> (repo_id, distributor_id) ->
  fst (remove repo_id distributor_id st) = Returns tt
  /\ find_one repo_id distributor_id
       (repo_distributors (snd (remove repo_id distributor_id st))) = None
  /\ find_one other_repo other_id
       (repo_distributors (snd (remove repo_id distributor_id st)))
     = find_one other_repo other_id (repo_distributors st)
  /\ repos (snd (remove repo_id distributor_id st)) = repos st.
Proof.
  intros Hkeys Hoids Hrepo Hrd Hreg Hcb Hother.
  rewrite (remove_distributor_returns _ _ _ _ _ _ _ Hrepo Hrd Hreg Hcb). simpl.
  split; [reflexivity|]. split; [|split; [|reflexivity]].
  - apply find_one_remove_by_oid_gone; assumption.
  - apply find_one_remove_by_oid_other. intros x Hx Hoid.
    pose proof (find_one_Some _ _ _ _ Hrd) as (Hin & Hr & Hi).
    assert (x = rd) by (apply (NoDup_map_In_eq rd_oid (repo_distributors st)); auto).
    subst x. apply not_true_is_false. intros Hm. apply matches_key in Hm. congruence.
Qed.

(** Adding a binding under a key nothing is stored under, with a fresh
    [_id], an accepting plugin, a callback that returns and a database
    that does not refuse to store the document: the new document is
    appended to the stored ones, which are all left as they were,
    reading the key back returns the document just added, and keys that
    were unique stay unique. *)
Theorem add_distributor_then_get
    (uuid4 : string) (oid : N) (repo_id distributor_type_id : string)
    (repo_plugin_config : option (gmap string pyval)) (auto_publish : pyval)
    (distributor_id : option string) (st : db)
    (repo : Repo) (p : Distributor) (pc : gmap string pyval)
    (new_id : string) (result : pyval) :
  find_one_repo repo_id (repos st) = Some repo ->
  registry distributor_type_id = Some (p, pc) ->
  assigned_id uuid4 distributor_id = Some new_id ->
  validate_config p (to_transfer_repo repo)
    (mkPluginCallConfiguration pc (without_None <$> repo_plugin_config))
    (mkRepoConfigConduit distributor_type_id) = Returns result ->
  accepted result = true ->
  find_one repo_id new_id (repo_distributors st) = None ->
  (forall d, In d (repo_distributors st) -> rd_oid d <> oid) ->
  distributor_added p (to_transfer_repo repo)
    (mkPluginCallConfiguration pc (without_None <$> repo_plugin_config)) = Returns tt ->
  save_refusal (repo_distributors st)
    (new_RepoDistributor oid repo_id new_id distributor_type_id
       (without_None <$> repo_plugin_config) auto_publish)
  = None ->
  exists (doc : RepoDistributor) (st' : db),
    add uuid4 oid repo_id distributor_type_id repo_plugin_config auto_publish
      distributor_id st
    = (Returns doc, st')
    /\ repo_distributors st' = (repo_distributors st ++ [doc])%list
    /\ get_distributor repo_id new_id st' = (Returns doc, st')
    /\ rd_distributor_type_id doc = distributor_type_id
    /\ rd_config doc = without_None <$> repo_plugin_config
    /\ rd_auto_publish doc = auto_publish
    /\ (unique_keys (repo_distributors st) -> unique_keys (repo_distributors st')).
Proof.
  intros Hrepo Hreg Hid Hval Hacc Hnone Hfresh Hadded Hstored.
  set (doc := new_RepoDistributor oid repo_id new_id distributor_type_id
                (without_None <$> repo_plugin_config) auto_publish).
  assert (Hm : matches repo_id new_id doc = true)
    by (unfold matches; simpl; rewrite !String.eqb_refl; reflexivity).
  exists doc, (mkDb (repos st) (repo_distributors st ++ [doc]) (scheduled_calls st)).
  split; [|split; [reflexivity|split; [|repeat split]]].
  - rewrite add_distributor_cases, Hrepo, Hreg, Hid. cbv zeta. rewrite Hval.
    unfold accepted in Hacc.
    destruct (normalize result) as [checked|]; [|discriminate]. rewrite Hacc.
    rewrite (remove_old_missing _ _ _ Hnone) by (eexists; exact Hrepo).
    rewrite Hadded, Hstored. fold doc. rewrite (save_fresh doc) by exact Hfresh.
    reflexivity.
  - unfold get_distributor. run_all. simpl.
    rewrite <- (save_fresh doc) by exact Hfresh.
    rewrite (find_one_save_new _ _ _ _ Hnone Hm). reflexivity.
  - intros Hkeys. simpl. apply unique_keys_append; [exact Hkeys|exact Hnone].
Qed.

(** Adding a binding over a stored one whose plugin lets it go, when
    the database does not refuse to store the new document, replaces
    it: with unique keys and a fresh [_id], afterwards the key finds the
    new document, the old document is gone, the other documents are
    those that were there, and keys are still unique. *)
Theorem add_distributor_replaces
    (uuid4 : string) (oid : N) (repo_id distributor_type_id : string)
    (repo_plugin_config : option (gmap string pyval)) (auto_publish : pyval)
    (distributor_id : option string) (st : db)
    (repo : Repo) (p p_old : Distributor) (pc pc_old : gmap string pyval)
    (new_id : string) (result : pyval) (old : RepoDistributor) :
  unique_keys (repo_distributors st) ->
  (forall d, In d (repo_distributors st) -> rd_oid d <> oid) ->
  find_one_repo repo_id (repos st) = Some repo ->
  registry distributor_type_id = Some (p, pc) ->
  assigned_id uuid4 distributor_id = Some new_id ->
  validate_config p (to_transfer_repo repo)
    (mkPluginCallConfiguration pc (without_None <$> repo_plugin_config))
    (mkRepoConfigConduit distributor_type_id) = Returns result ->
  accepted result = true ->
  find_one repo_id new_id (repo_distributors st) = Some old ->
  registry (rd_distributor_type_id old) = Some (p_old, pc_old) ->
  distributor_removed p_old
    (set_working_dir (to_transfer_repo repo) get_working_directory)
    (mkPluginCallConfiguration pc_old (rd_config old)) = Returns tt ->
  distributor_added p (to_transfer_repo repo)
    (mkPluginCallConfiguration pc (without_None <$> repo_plugin_config)) = Returns tt ->
  save_refusal (remove_by_oid (rd_oid old) (repo_distributors st))
    (new_RepoDistributor oid repo_id new_id distributor_type_id
       (without_None <$> repo_plugin_config) auto_publish)
  = None ->
  exists (doc : RepoDistributor) (st' : db),
    add uuid4 oid repo_id distributor_type_id repo_plugin_config auto_publish
      distributor_id st
    = (Returns doc, st')
    /\ repo_distributors st'
       = (remove_by_oid (rd_oid old) (repo_distributors st) ++ [doc])%list
    /\ find_one repo_id new_id (repo_distributors st') = Some doc
    /\ rd_distributor_type_id doc = distributor_type_id
    /\ ~ In old (repo_distributors st')
    /\ unique_keys (repo_distributors st').
Proof.
  intros Hkeys Hfresh Hrepo Hreg Hid Hval Hacc Hold Hreg_old Hremoved Hadded Hstored.
  set (doc := new_RepoDistributor oid repo_id new_id distributor_type_id
                (without_None <$> repo_plugin_config) auto_publish).
  set (kept := remove_by_oid (rd_oid old) (repo_distributors st)).
  assert (Hm : matches repo_id new_id doc = true)
    by (unfold matches; simpl; rewrite !String.eqb_refl; reflexivity).
  assert (Hfresh' : forall d, In d kept -> rd_oid d <> rd_oid doc).
  { intros d Hd. apply remove_by_oid_incl in Hd. apply Hfresh, Hd. }
  assert (Hgone : find_one repo_id new_id kept = None)
    by (apply find_one_remove_by_oid_gone; assumption).
  exists doc, (mkDb (repos st) (kept ++ [doc])
                 (schedules_without repo_id (rd_id old) (scheduled_calls st))).
  split; [|split; [reflexivity|split; [|split; [reflexivity|split]]]].
  - rewrite add_distributor_cases, Hrepo, Hreg, Hid. cbv zeta. rewrite Hval.
    unfold accepted in Hacc.
    destruct (normalize result) as [checked|]; [|discriminate]. rewrite Hacc.
    unfold remove_old, try_except.
    rewrite (remove_distributor_returns _ _ _ _ _ _ _ Hrepo Hold Hreg_old Hremoved).
    rewrite Hadded. cbn [repo_distributors repos scheduled_calls].
    rewrite Hstored. fold doc kept.
    rewrite (save_fresh doc kept Hfresh'). reflexivity.
  - cbn [repo_distributors]. rewrite <- (save_fresh doc kept Hfresh').
    apply find_one_save_new; assumption.
  - cbn [repo_distributors]. intros Hin. apply in_app_or in Hin as [Hin|[Hin|[]]].
    + apply remove_by_oid_gone in Hin. congruence.
    + apply (Hfresh old); [apply find_one_Some in Hold; tauto|].
      rewrite <- Hin. reflexivity.
  - cbn [repo_distributors]. apply unique_keys_append; [|exact Hgone].
    apply NoDup_map_filter, Hkeys.
Qed.

(** A value for [auto_publish] that is neither [None] nor a boolean
    makes [update_distributor_config] raise [InvalidValue] for
    [auto_publish] after the plugin has accepted the merged
    configuration: nothing is saved, not the configuration either. *)
Theorem update_distributor_config_checks_auto_publish
    (repo_id distributor_id : string) (auto_publish : pyval) (st : db)
    (delta : gmap string pyval)
    (repo : Repo) (rd : RepoDistributor) (p : Distributor)
    (pc stored : gmap string pyval) (result : pyval) :
  find_one_repo repo_id (repos st) = Some repo ->
  find_one repo_id distributor_id (repo_distributors st) = Some rd ->
  registry (rd_distributor_type_id rd) = Some (p, pc) ->
  rd_config rd = Some stored ->
  validate_config p
    (set_working_dir (to_transfer_repo repo) get_working_directory)
    (mkPluginCallConfiguration pc (Some (fst (merge_delta stored delta))))
    (mkRepoConfigConduit (rd_distributor_type_id rd)) = Returns result ->
  accepted result = true ->
  is_None auto_publish = false ->
  isinstance_bool auto_publish = false ->
  update repo_id distributor_id auto_publish (st, delta)
  = (Raises (InvalidValue ["auto_publish"]), (st, snd (merge_delta stored delta))).
Proof.
  intros Hrepo Hrd Hreg Hcfg Hval Hacc Hnone Hbool.
  rewrite update_distributor_config_cases, Hrepo, Hrd, Hreg, Hcfg. cbv zeta.
  rewrite Hval. unfold accepted in Hacc.
  destruct (normalize result) as [checked|]; [|discriminate].
  rewrite Hacc, Hnone, Hbool. reflexivity.
Qed.

(** A stored binding whose configuration is [None] cannot be updated:
    [update_distributor_config] raises [TypeError] before the delta is
    looked at, and changes neither the database nor the delta. *)
Theorem update_distributor_config_of_None
    (repo_id distributor_id : string) (auto_publish : pyval) (st : db)
    (delta : gmap string pyval)
    (repo : Repo) (rd : RepoDistributor) (p : Distributor) (pc : gmap string pyval) :
  find_one_repo repo_id (repos st) = Some repo ->
  find_one repo_id distributor_id (repo_distributors st) = Some rd ->
  registry (rd_distributor_type_id rd) = Some (p, pc) ->
  rd_config rd = None ->
  update repo_id distributor_id auto_publish (st, delta)
  = (Raises (TypeError "'NoneType' object is not iterable"), (st, delta)).
Proof.
  intros Hrepo Hrd Hreg Hcfg.
  rewrite update_distributor_config_cases, Hrepo, Hrd, Hreg, Hcfg. reflexivity.
Qed.

(** An update that the plugin accepts and the database does not refuse
    to store goes through, and changes the configuration and, when a
    boolean is given, the auto-publish flag, and nothing else: the saved
    binding keeps its [_id], key, type, scratchpad and schedules, a
    [None] for [auto_publish] keeps the stored flag, the stored
    documents keep their [_id]s and keys, and any other key finds what
    it found before. *)
Theorem update_distributor_config_keeps_rest
    (repo_id distributor_id : string) (auto_publish : pyval) (st : db)
    (delta : gmap string pyval)
    (repo : Repo) (rd : RepoDistributor) (p : Distributor)
    (pc stored : gmap string pyval) (result : pyval)
    (other_repo other_id : string) :
  unique_oids (repo_distributors st) ->
  find_one_repo repo_id (repos st) = Some repo ->
  find_one repo_id distributor_id (repo_distributors st) = Some rd ->
  registry (rd_distributor_type_id rd) = Some (p, pc) ->
  rd_config rd = Some stored ->
  validate_config p
    (set_working_dir (to_transfer_repo repo) get_working_directory)
    (mkPluginCallConfiguration pc (Some (fst (merge_delta stored delta))))
    (mkRepoConfigConduit (rd_distributor_type_id rd)) = Returns result ->
  accepted result = true ->
  is_None auto_publish = true \/ isinstance_bool auto_publish = true ->
  save_refusal (repo_distributors st)
    (set_config
       (if is_None auto_publish then rd else set_auto_publish rd auto_publish)
       (fst (merge_delta stored delta)))
  = None ->
  (other_repo, other_id) <> (repo_id, distributor_id) ->
  exists (saved : RepoDistributor) (st' : db),
    update repo_id distributor_id auto_publish (st, delta)
    = (Returns saved, (st', snd (merge_delta stored delta)))
    /\ identity saved = identity rd
    /\ rd_distributor_type_id saved = rd_distributor_type_id rd
    /\ rd_scratchpad saved = rd_scratchpad rd
    /\ rd_scheduled_publishes saved = rd_scheduled_publishes rd
    /\ rd_auto_publish saved
       = (if is_None auto_publish then rd_auto_publish rd else auto_publish)
    /\ List.map identity (repo_distributors st')
       = List.map identity (repo_distributors st)
    /\ find_one other_repo other_id (repo_distributors st')
       = find_one other_repo other_id (repo_distributors st)
    /\ repos st' = repos st
    /\ scheduled_calls st' = scheduled_calls st.
Proof.
  intros Huniq Hrepo Hrd Hreg Hcfg Hval Hacc Hap Hstored Hother.
  pose proof (find_one_Some _ _ _ _ Hrd) as (Hin & Hr & Hi).
  assert (Hkey : forall saved,
             identity saved = identity rd ->
             find_one other_repo other_id (save saved (repo_distributors st))
             = find_one other_repo other_id (repo_distributors st)).
  { intros saved Hid.
    assert (Hm : matches other_repo other_id rd = false).
    { apply not_true_is_false. intros Hm. apply matches_key in Hm. congruence. }
    apply find_one_save_other.
    - rewrite (matches_identity _ _ _ _ Hid). exact Hm.
    - intros d Hd Hoid.
      assert (d = rd).
      { apply (NoDup_map_In_eq rd_oid (repo_distributors st)); auto.
        unfold identity in Hid. congruence. }
      subst d. exact Hm. }
  rewrite update_distributor_config_cases, Hrepo, Hrd, Hreg, Hcfg. cbv zeta.
  rewrite Hval. unfold accepted in Hacc.
  destruct (normalize result) as [checked|]; [|discriminate]. rewrite Hacc.
  destruct (is_None auto_publish) eqn:Hnone.
  - rewrite Hstored.
    eexists _, _. split; [reflexivity|]. cbn [repo_distributors repos scheduled_calls].
    repeat split.
    + apply (save_identities _ rd); auto.
    + apply Hkey. reflexivity.
  - destruct Hap as [Hap|Hap]; [discriminate|]. rewrite Hap, Hstored.
    eexists _, _. split; [reflexivity|]. cbn [repo_distributors repos scheduled_calls].
    repeat split.
    + apply (save_identities _ rd); auto.
    + apply Hkey. reflexivity.
Qed.

Lemma configs_clean_incl (c c' : list RepoDistributor) :
  incl c' c -> configs_clean c -> configs_clean c'.
Proof. intros Hincl Hclean d config k Hd. apply Hclean, Hincl, Hd. Qed.

Lemma configs_clean_save (doc : RepoDistributor) (c : list RepoDistributor) :
  configs_clean c ->
  (forall config k, rd_config doc = Some config -> config !! k <> Some PyNone) ->
  configs_clean (save doc c).
Proof.
  intros Hclean Hdoc d config k Hd Hcfg.
  apply save_In_inv in Hd as [->|Hd]; [apply Hdoc, Hcfg|].
  apply (Hclean d); assumption.
Qed.

(** No explicit [None] gets into a stored configuration through
    [add_distributor]: if no stored configuration maps a key to [None]
    before the call, none does after it, whatever the arguments, the
    plugin and the outcome. *)
Theorem add_distributor_keeps_configs_clean
    (uuid4 : string) (oid : N) (repo_id distributor_type_id : string)
    (repo_plugin_config : option (gmap string pyval)) (auto_publish : pyval)
    (distributor_id : option string) (st : db) :
  configs_clean (repo_distributors st) ->
  configs_clean
    (repo_distributors
       (snd (add uuid4 oid repo_id distributor_type_id repo_plugin_config
               auto_publish distributor_id st))).
Proof.
  intros Hclean. rewrite add_distributor_cases.
  destruct (find_one_repo repo_id (repos st)) as [repo|]; [|exact Hclean].
  destruct (registry distributor_type_id) as [[p pc]|]; [|exact Hclean].
  destruct (assigned_id uuid4 distributor_id) as [new_id|]; [|exact Hclean].
  cbv zeta.
  destruct (validate_config p _ _ _) as [result|]; [|exact Hclean].
  destruct (normalize result) as [checked|]; [|exact Hclean].
  destruct (truthy (fst checked)); [|exact Hclean].
  pose proof (remove_old_shrinks registry to_transfer_repo get_working_directory
                repo_id new_id st) as Hincl.
  destruct (remove_old _ _ _ repo_id new_id st) as [[u|e] st1]; simpl in Hincl.
  - pose proof (configs_clean_incl _ _ Hincl Hclean) as Hclean1.
    destruct (distributor_added p _ _); [|exact Hclean1].
    destruct (save_refusal _ _); [exact Hclean1|].
    cbn [snd repo_distributors]. apply configs_clean_save; [exact Hclean1|].
    intros config k Hcfg. simpl in Hcfg.
    destruct repo_plugin_config as [given|]; [|discriminate].
    injection Hcfg as <-. apply without_None_no_None.
  - exact (configs_clean_incl _ _ Hincl Hclean).
Qed.

(** Nor through [update_distributor_config]: if no stored
    configuration maps a key to [None] before the call, none does after
    it, whatever the delta, the plugin and the outcome. *)
Theorem update_distributor_config_keeps_configs_clean
    (repo_id distributor_id : string) (auto_publish : pyval) (st : db)
    (delta : gmap string pyval) :
  configs_clean (repo_distributors st) ->
  configs_clean
    (repo_distributors
       (fst (snd (update repo_id distributor_id auto_publish (st, delta))))).
Proof.
  intros Hclean. rewrite update_distributor_config_cases.
  destruct (find_one_repo repo_id (repos st)) as [repo|]; [|exact Hclean].
  destruct (find_one repo_id distributor_id (repo_distributors st)) as [rd|] eqn:Hrd;
    [|exact Hclean].
  destruct (registry (rd_distributor_type_id rd)) as [[p pc]|]; [|exact Hclean].
  destruct (rd_config rd) as [stored|] eqn:Hcfg; [|exact Hclean].
  cbv zeta.
  assert (Hmerged : forall k, fst (merge_delta stored delta) !! k <> Some PyNone).
  { intros k. destruct (merge_delta_lookup stored delta k) as [-> _].
    destruct (delta !! k) as [v|].
    - destruct v; discriminate.
    - apply (Hclean rd); [apply find_one_Some in Hrd; tauto|exact Hcfg]. }
  assert (Hsave : forall saved,
             rd_config saved = Some (fst (merge_delta stored delta)) ->
             configs_clean (save saved (repo_distributors st))).
  { intros saved Hsaved. apply configs_clean_save; [exact Hclean|].
    intros config k Hc. rewrite Hsaved in Hc. injection Hc as <-. apply Hmerged. }
  destruct (validate_config p _ _ _) as [result|]; [|exact Hclean].
  destruct (normalize result) as [checked|]; [|exact Hclean].
  destruct (truthy (fst checked)); [|exact Hclean].
  destruct (is_None auto_publish).
  - destruct (save_refusal _ _); [exact Hclean|apply Hsave; reflexivity].
  - destruct (isinstance_bool auto_publish); [|exact Hclean].
    destruct (save_refusal _ _); [exact Hclean|apply Hsave; reflexivity].
Qed.

(** When the database refuses to store the new document,
    [add_distributor] lets the refusal's exception through after the
    plugin has accepted the configuration, the old binding has been
    removed and [distributor_added] has run: the database is left as the
    replacement step left it, with nothing stored for the new binding. *)
Theorem add_distributor_save_refused
    (uuid4 : string) (oid : N) (repo_id distributor_type_id : string)
    (repo_plugin_config : option (gmap string pyval)) (auto_publish : pyval)
    (distributor_id : option string) (st st1 : db)
    (repo : Repo) (p : Distributor) (pc : gmap string pyval)
    (new_id : string) (result : pyval) (e : exn) :
  find_one_repo repo_id (repos st) = Some repo ->
  registry distributor_type_id = Some (p, pc) ->
  assigned_id uuid4 distributor_id = Some new_id ->
  validate_config p (to_transfer_repo repo)
    (mkPluginCallConfiguration pc (without_None <$> repo_plugin_config))
    (mkRepoConfigConduit distributor_type_id) = Returns result ->
  accepted result = true ->
  replace_old repo_id new_id st = (Returns tt, st1) ->
  distributor_added p (to_transfer_repo repo)
    (mkPluginCallConfiguration pc (without_None <$> repo_plugin_config)) = Returns tt ->
  save_refusal (repo_distributors st1)
    (new_RepoDistributor oid repo_id new_id distributor_type_id
       (without_None <$> repo_plugin_config) auto_publish)
  = Some e ->
  add uuid4 oid repo_id distributor_type_id repo_plugin_config auto_publish
    distributor_id st
  = (Raises e, st1)
  /\ incl (repo_distributors st1) (repo_distributors st)
  /\ (unique_keys (repo_distributors st) ->
      fst (remove repo_id new_id st) = Returns tt ->
      find_one repo_id new_id (repo_distributors st1) = None).
Proof.
  intros Hrepo Hreg Hid Hval Hacc Hold Hadded Hrefused.
  assert (Hincl : incl (repo_distributors st1) (repo_distributors st)).
  { pose proof (remove_old_shrinks registry to_transfer_repo get_working_directory
                  repo_id new_id st) as H.
    rewrite Hold in H. exact H. }
  split; [|split; [exact Hincl|]].
  - rewrite add_distributor_cases, Hrepo, Hreg, Hid. cbv zeta. rewrite Hval.
    unfold accepted in Hacc.
    destruct (normalize result) as [checked|]; [|discriminate].
    rewrite Hacc, Hold, Hadded, Hrefused. reflexivity.
  - intros Hkeys Hremoved. unfold remove_old, try_except in Hold.
    rewrite remove_distributor_cases, Hrepo in Hold, Hremoved.
    destruct (find_one repo_id new_id (repo_distributors st)) as [old|] eqn:Hfind;
      [|discriminate].
    cbv zeta in Hold, Hremoved.
    destruct (registry (rd_distributor_type_id old)) as [[p_old pc_old]|];
      [|discriminate].
    destruct (distributor_removed p_old _ _); [|discriminate].
    injection Hold as <-. cbn [repo_distributors].
    apply find_one_remove_by_oid_gone; assumption.
Qed.

(** When the database refuses to store the changed document,
    [update_distributor_config] and [set_distributor_scratchpad] let
    the refusal's exception through and leave the database as it was;
    the update has by then taken the [None] keys out of the caller's
    delta. *)
Theorem changed_document_refused :
  (forall (repo_id distributor_id : string) (auto_publish : pyval) (st : db)
          (delta : gmap string pyval)
          (repo : Repo) (rd : RepoDistributor) (p : Distributor)
          (pc stored : gmap string pyval) (result : pyval) (e : exn),
      find_one_repo repo_id (repos st) = Some repo ->
      find_one repo_id distributor_id (repo_distributors st) = Some rd ->
      registry (rd_distributor_type_id rd) = Some (p, pc) ->
      rd_config rd = Some stored ->
      validate_config p
        (set_working_dir (to_transfer_repo repo) get_working_directory)
        (mkPluginCallConfiguration pc (Some (fst (merge_delta stored delta))))
        (mkRepoConfigConduit (rd_distributor_type_id rd)) = Returns result ->
      accepted result = true ->
      is_None auto_publish = true \/ isinstance_bool auto_publish = true ->
      save_refusal (repo_distributors st)
        (set_config
           (if is_None auto_publish then rd else set_auto_publish rd auto_publish)
           (fst (merge_delta stored delta)))
      = Some e ->
      update repo_id distributor_id auto_publish (st, delta)
      = (Raises e, (st, snd (merge_delta stored delta))))
  /\
  (forall (repo_id distributor_id : string) (contents : pyval) (st : db)
          (rd : RepoDistributor) (e : exn),
      find_one repo_id distributor_id (repo_distributors st) = Some rd ->
      save_refusal (repo_distributors st) (set_scratchpad rd contents) = Some e ->
      set_distributor_scratchpad save_refusal repo_id distributor_id contents st
      = (Raises e, st)).
Proof.
  split.
  - intros * Hrepo Hrd Hreg Hcfg Hval Hacc Hap Hrefused.
    rewrite update_distributor_config_cases, Hrepo, Hrd, Hreg, Hcfg. cbv zeta.
    rewrite Hval. unfold accepted in Hacc.
    destruct (normalize result) as [checked|]; [|discriminate]. rewrite Hacc.
    destruct (is_None auto_publish).
    + rewrite Hrefused. reflexivity.
    + destruct Hap as [Hap|Hap]; [discriminate|]. rewrite Hap, Hrefused. reflexivity.
  - intros * Hrd Hrefused. unfold set_distributor_scratchpad. run_all.
    rewrite Hrd, Hrefused. reflexivity.
Qed.

End Coverage.

(** *** Heartbeats of other workers *)

(** A heartbeat of one worker leaves the record of every other worker
    as it was, creates no record but that worker's, and deletes none. *)
Theorem handle_worker_heartbeat_touches_one (event : WorkerWatcher.Event)
    (workers : gmap string WorkerWatcher.Worker) (other : string) :
  other <> WorkerWatcher.ev_hostname event ->
  WorkerWatcher.handle_worker_heartbeat event workers !! other = workers !! other
  /\ dom (WorkerWatcher.handle_worker_heartbeat event workers)
     = {[ WorkerWatcher.ev_hostname event ]} ∪ dom workers.
Proof.
  intros Hother. unfold WorkerWatcher.handle_worker_heartbeat. simpl.
  destruct (workers !! WorkerWatcher.ev_hostname event) as [w|] eqn:Hw.
  - unfold WorkerWatcher.find_and_modify_last_heartbeat. split.
    + apply lookup_alter_ne. congruence.
    + rewrite dom_alter_L. apply elem_of_dom_2 in Hw. symmetry.
      apply subseteq_union_1_L, singleton_subseteq_l, Hw.
  - unfold WorkerWatcher.save_worker. simpl. split.
    + apply lookup_insert_ne. congruence.
    + apply dom_insert_L.
Qed.

(** *** The rest of the manager at work on the stand-ins *)

Lemma store_unique_oids : unique_oids (repo_distributors Mock.store).
Proof. unfold unique_oids. apply (bool_decide_unpack _). vm_compute. exact I. Qed.

Lemma store_unique_keys : unique_keys (repo_distributors Mock.store).
Proof. unfold unique_keys. apply (bool_decide_unpack _). vm_compute. exact I. Qed.

Lemma store_fresh_oid (d : RepoDistributor) :
  In d (repo_distributors Mock.store) -> rd_oid d <> 9%N.
Proof. simpl. intros [<-|[<-|[<-|[<-|[]]]]]; discriminate. Qed.

Lemma d2_d3_configs_clean : configs_clean [Mock.d2; Mock.d3].
Proof.
  intros d config k [<-|[<-|[]]] [= <-]; rewrite lookup_empty; discriminate.
Qed.

Lemma store_takes_noted_d2 :
  overflow_refusal (repo_distributors Mock.store)
    (set_scratchpad Mock.d2 (PyStr "notes"))
  = None.
Proof. vm_compute. reflexivity. Qed.

Lemma scratchpad_set_then_get_witness :
  fst (get_distributor_scratchpad "repo-1" "d2"
         (snd (set_distributor_scratchpad overflow_refusal "repo-1" "d2" (PyStr "notes") Mock.store)))
  = Returns (PyStr "notes").
Proof.
  exact (proj1 (proj2 (scratchpad_set_then_get overflow_refusal "repo-1" "d2"
                         (PyStr "notes") Mock.store Mock.d2 eq_refl
                         store_takes_noted_d2))).
Defined.

Lemma scratchpad_of_missing_binding_witness :
  set_distributor_scratchpad overflow_refusal "ghost" "d1" (PyStr "notes") Mock.store
  = (Returns tt, Mock.store)
  /\ get_distributor_scratchpad "ghost" "d1" Mock.store = (Returns PyNone, Mock.store).
Proof.
  exact (scratchpad_of_missing_binding overflow_refusal "ghost" "d1" (PyStr "notes") Mock.store eq_refl).
Defined.

Lemma scratchpad_set_touches_one_witness :
  find_one "repo-1" "d2"
    (repo_distributors
       (snd (set_distributor_scratchpad overflow_refusal "repo-1" "d1" (PyStr "notes") Mock.store)))
  = Some Mock.d2.
Proof.
  assert (Hother : ("repo-1", "d2") <> ("repo-1", "d1")) by discriminate.
  rewrite (proj1 (proj2 (scratchpad_set_touches_one overflow_refusal "repo-1" "d1" (PyStr "notes")
                           Mock.store "repo-1" "d2" store_unique_oids Hother))).
  reflexivity.
Defined.

Lemma add_publish_schedule_listed_witness :
  exists listed : list string,
    fst (list_publish_schedules "repo-1" "d1"
           (snd (add_publish_schedule "repo-1" "d1" "s9" Mock.store)))
    = Returns listed
    /\ In "s9" listed.
Proof.
  destruct (add_publish_schedule_listed "repo-1" "d1" "s9" Mock.store Mock.d1
              store_unique_oids eq_refl)
    as (listed & _ & Hlist & Hin & _).
  exists listed. rewrite Hlist. auto.
Defined.

Lemma add_publish_schedule_idempotent_witness :
  add_publish_schedule "repo-1" "d1" "s9"
    (snd (add_publish_schedule "repo-1" "d1" "s9" Mock.store))
  = (Returns tt, snd (add_publish_schedule "repo-1" "d1" "s9" Mock.store)).
Proof.
  exact (add_publish_schedule_idempotent "repo-1" "d1" "s9" Mock.store Mock.d1
           store_unique_oids eq_refl).
Defined.

Lemma remove_publish_schedule_unlisted_witness :
  fst (list_publish_schedules "repo-1" "d1"
         (snd (remove_publish_schedule "repo-1" "d1" "s1" Mock.store)))
  = Returns [].
Proof.
  exact (proj1 (proj2 (remove_publish_schedule_unlisted "repo-1" "d1" "s1" Mock.store
                         Mock.d1 store_unique_oids eq_refl))).
Defined.

Lemma add_then_remove_publish_schedule_witness :
  remove_publish_schedule "repo-1" "d1" "s9"
    (snd (add_publish_schedule "repo-1" "d1" "s9" Mock.store))
  = (Returns tt, Mock.store).
Proof.
  apply (add_then_remove_publish_schedule "repo-1" "d1" "s9" Mock.store Mock.d1
           store_unique_oids eq_refl).
  simpl. intros [H|[]]. discriminate.
Defined.

Lemma publish_schedules_of_missing_binding_witness :
  add_publish_schedule "repo-1" "nope" "s1" Mock.store
  = (Raises (MissingResource {[ "repo" := "repo-1"; "distributor" := "nope" ]}),
     Mock.store).
Proof.
  exact (proj1 (publish_schedules_of_missing_binding "repo-1" "nope" "s1" Mock.store
                  eq_refl)).
Defined.

Lemma publish_schedule_touches_one_witness :
  find_one "repo-1" "d2"
    (repo_distributors (snd (add_publish_schedule "repo-1" "d1" "s9" Mock.store)))
  = Some Mock.d2.
Proof.
  assert (Hother : ("repo-1", "d2") <> ("repo-1", "d1")) by discriminate.
  rewrite (proj2 (proj1 (publish_schedule_touches_one "repo-1" "d1" "s9" Mock.store
                           "repo-1" "d2" store_unique_oids Hother))).
  reflexivity.
Defined.

Lemma get_distributors_of_repo_witness :
  exists found : list RepoDistributor,
    get_distributors "repo-1" Mock.store = (Returns found, Mock.store)
    /\ find_by_repo_list ["repo-1"] Mock.store
       = (Returns (List.map project_out_scratchpad found), Mock.store).
Proof.
  destruct (get_distributors_of_repo "repo-1" Mock.store (mkRepo "repo-1" ∅) eq_refl)
    as (found & Hget & _ & Hbulk).
  exists found. auto.
Defined.

Lemma get_distributors_of_missing_repo_witness :
  get_distributors "repo-1" (mkDb [] [Mock.d1] [])
  = (Raises (MissingResource {[ "repository" := "repo-1" ]}), mkDb [] [Mock.d1] []).
Proof.
  exact (proj1 (get_distributors_of_missing_repo "repo-1" (mkDb [] [Mock.d1] [])
                  eq_refl)).
Defined.

Lemma create_bind_payload_outcome_witness :
  Mock.payload "repo-1" "d1" PyNone Mock.store = (Returns PyNone, Mock.store)
  /\ Mock.payload_failing "repo-1" "d1" PyNone Mock.store
     = (Raises PulpExecutionException, Mock.store).
Proof.
  split.
  - exact (create_bind_payload_outcome Mock.registry Mock.to_transfer_repo
             Mock.working_directory Mock.transfer_of_None "repo-1" "d1" PyNone
             Mock.store (mkRepo "repo-1" ∅) Mock.d1 Mock.distributor ∅
             eq_refl eq_refl eq_refl).
  - exact (create_bind_payload_outcome Mock.registry_payload_raises
             Mock.to_transfer_repo Mock.working_directory Mock.transfer_of_None
             "repo-1" "d1" PyNone Mock.store (mkRepo "repo-1" ∅) Mock.d1
             Mock.payload_raises ∅ eq_refl eq_refl eq_refl).
Defined.

Lemma create_bind_payload_never_writes_witness :
  fst (Mock.payload "ghost" "nope" PyNone Mock.store)
  = Raises (MissingResource {[ "distributor" := "nope" ]})
  /\ snd (Mock.payload "ghost" "nope" PyNone Mock.store) = Mock.store.
Proof.
  destruct (create_bind_payload_never_writes Mock.registry Mock.to_transfer_repo
              Mock.working_directory Mock.transfer_of_None "ghost" "nope" PyNone
              Mock.store) as [Hsame Hmissing].
  split; [exact (Hmissing eq_refl)|exact Hsame].
Defined.

Lemma add_distributor_checks_arguments_witness :
  Mock.add "uuid" 9%N "ghost" "nope" (Some ∅) (PyBool false) (Some "!@#$") Mock.store
  = (Raises (MissingResource {[ "repository" := "ghost" ]}), Mock.store)
  /\ Mock.add "uuid" 9%N "repo-1" "nope" (Some ∅) (PyBool false) (Some "!@#$")
       Mock.store
     = (Raises (InvalidValue ["distributor_type_id"]), Mock.store)
  /\ Mock.add "uuid" 9%N "repo-1" "mock-distributor" (Some ∅) (PyBool false)
       (Some "!@#$") Mock.store
     = (Raises (InvalidValue ["distributor_id"]), Mock.store).
Proof.
  split; [|split].
  - apply (add_distributor_checks_arguments Mock.registry Mock.to_transfer_repo
             Mock.working_directory overflow_refusal "uuid" 9%N "ghost" "nope" (Some ∅) (PyBool false)
             (Some "!@#$") Mock.store).
    left. reflexivity.
  - apply (add_distributor_checks_arguments Mock.registry Mock.to_transfer_repo
             Mock.working_directory overflow_refusal "uuid" 9%N "repo-1" "nope" (Some ∅) (PyBool false)
             (Some "!@#$") Mock.store).
    right. left. reflexivity.
  - apply (add_distributor_checks_arguments Mock.registry Mock.to_transfer_repo
             Mock.working_directory overflow_refusal "uuid" 9%N "repo-1" "mock-distributor" (Some ∅)
             (PyBool false) (Some "!@#$") Mock.store).
    right. right. reflexivity.
Defined.

Lemma remove_distributor_deletes_witness :
  fst (Mock.remove "repo-1" "d1" Mock.store) = Returns tt
  /\ find_one "repo-1" "d1" (repo_distributors (snd (Mock.remove "repo-1" "d1" Mock.store)))
     = None
  /\ find_one "repo-1" "d2" (repo_distributors (snd (Mock.remove "repo-1" "d1" Mock.store)))
     = Some Mock.d2.
Proof.
  assert (Hother : ("repo-1", "d2") <> ("repo-1", "d1")) by discriminate.
  destruct (remove_distributor_deletes Mock.registry Mock.to_transfer_repo
              Mock.working_directory "repo-1" "d1" Mock.store (mkRepo "repo-1" ∅)
              Mock.d1 Mock.distributor ∅ "repo-1" "d2" store_unique_keys
              store_unique_oids eq_refl eq_refl eq_refl eq_refl Hother)
    as (Hret & Hgone & Hkept & _).
  split; [exact Hret|]. split; [exact Hgone|]. unfold Mock.remove. rewrite Hkept.
  reflexivity.
Defined.

Lemma store_takes_uuid :
  overflow_refusal (repo_distributors Mock.store)
    (new_RepoDistributor 9%N "repo-1" "uuid" "mock-distributor"
       (without_None <$> Some {[ "a" := PyStr "a" ]}) (PyBool true))
  = None.
Proof. vm_compute. reflexivity. Qed.

Lemma add_distributor_then_get_witness :
  exists (doc : RepoDistributor) (st' : db),
    Mock.add "uuid" 9%N "repo-1" "mock-distributor"
      (Some {[ "a" := PyStr "a" ]}) (PyBool true) None Mock.store
    = (Returns doc, st')
    /\ get_distributor "repo-1" "uuid" st' = (Returns doc, st')
    /\ repo_distributors st' = [Mock.d1; Mock.d2; Mock.d3; Mock.d4; doc].
Proof.
  destruct (add_distributor_then_get Mock.registry Mock.to_transfer_repo
              Mock.working_directory overflow_refusal "uuid" 9%N "repo-1" "mock-distributor"
              (Some {[ "a" := PyStr "a" ]}) (PyBool true) None Mock.store
              (mkRepo "repo-1" ∅) Mock.distributor ∅ "uuid" (PyBool true)
              eq_refl eq_refl eq_refl eq_refl eq_refl eq_refl store_fresh_oid eq_refl
              store_takes_uuid)
    as (doc & st' & Hadd & Hdocs & Hget & _).
  exists doc, st'. split; [exact Hadd|]. split; [exact Hget|exact Hdocs].
Defined.

Lemma store_takes_new_d1 :
  overflow_refusal (remove_by_oid (rd_oid Mock.d1) (repo_distributors Mock.store))
    (new_RepoDistributor 9%N "repo-1" "d1" "mock-removed-raises"
       (without_None <$> Some ∅) (PyBool true))
  = None.
Proof. vm_compute. reflexivity. Qed.

Lemma add_distributor_replaces_witness :
  exists (doc : RepoDistributor) (st' : db),
    Mock.add "uuid" 9%N "repo-1" "mock-removed-raises" (Some ∅) (PyBool true)
      (Some "d1") Mock.store
    = (Returns doc, st')
    /\ repo_distributors st' = [Mock.d2; Mock.d3; Mock.d4; doc]
    /\ find_one "repo-1" "d1" (repo_distributors st') = Some doc
    /\ rd_distributor_type_id doc = "mock-removed-raises".
Proof.
  destruct (add_distributor_replaces Mock.registry Mock.to_transfer_repo
              Mock.working_directory overflow_refusal "uuid" 9%N "repo-1" "mock-removed-raises"
              (Some ∅) (PyBool true) (Some "d1") Mock.store
              (mkRepo "repo-1" ∅) Mock.removed_raises Mock.distributor ∅ ∅ "d1"
              (PyBool true) Mock.d1
              store_unique_keys store_fresh_oid eq_refl eq_refl eq_refl eq_refl
              eq_refl eq_refl eq_refl eq_refl eq_refl store_takes_new_d1)
    as (doc & st' & Hadd & Hdocs & Hfind & Htype & _).
  exists doc, st'. repeat split; assumption.
Defined.

Lemma update_distributor_config_checks_auto_publish_witness :
  Mock.update "repo-1" "d1" (PyStr "yes") (Mock.store, {[ "a" := PyStr "A" ]})
  = (Raises (InvalidValue ["auto_publish"]),
     (Mock.store,
      snd (merge_delta {[ "a" := PyStr "a"; "b" := PyStr "b"; "c" := PyStr "c" ]}
             {[ "a" := PyStr "A" ]}))).
Proof.
  exact (update_distributor_config_checks_auto_publish Mock.registry
           Mock.to_transfer_repo Mock.working_directory Mock.exception_args overflow_refusal
           "repo-1" "d1" (PyStr "yes") Mock.store {[ "a" := PyStr "A" ]}
           (mkRepo "repo-1" ∅) Mock.d1 Mock.distributor ∅
           {[ "a" := PyStr "a"; "b" := PyStr "b"; "c" := PyStr "c" ]} (PyBool true)
           eq_refl eq_refl eq_refl eq_refl eq_refl eq_refl eq_refl eq_refl).
Defined.

Lemma update_distributor_config_of_None_witness :
  Mock.update "repo-1" "d5" PyNone (Mock.store_with_d5, {[ "a" := PyStr "A" ]})
  = (Raises (TypeError "'NoneType' object is not iterable"),
     (Mock.store_with_d5, {[ "a" := PyStr "A" ]})).
Proof.
  exact (update_distributor_config_of_None Mock.registry Mock.to_transfer_repo
           Mock.working_directory Mock.exception_args overflow_refusal "repo-1" "d5" PyNone
           Mock.store_with_d5 {[ "a" := PyStr "A" ]} (mkRepo "repo-1" ∅) Mock.d5
           Mock.distributor ∅ eq_refl eq_refl eq_refl eq_refl).
Defined.

Lemma store_takes_published_d1 :
  overflow_refusal (repo_distributors Mock.store)
    (set_config
       (if is_None (PyBool true) then Mock.d1
        else set_auto_publish Mock.d1 (PyBool true))
       (fst (merge_delta {[ "a" := PyStr "a"; "b" := PyStr "b"; "c" := PyStr "c" ]}
               {[ "a" := PyStr "A" ]})))
  = None.
Proof. vm_compute. reflexivity. Qed.

Lemma update_distributor_config_keeps_rest_witness :
  exists (saved : RepoDistributor) (st' : db),
    fst (Mock.update "repo-1" "d1" (PyBool true) (Mock.store, {[ "a" := PyStr "A" ]}))
    = Returns saved
    /\ rd_scratchpad saved = Some (PyStr "state")
    /\ rd_scheduled_publishes saved = ["s1"]
    /\ rd_auto_publish saved = PyBool true
    /\ find_one "repo-1" "d2" (repo_distributors st') = Some Mock.d2.
Proof.
  assert (Hother : ("repo-1", "d2") <> ("repo-1", "d1")) by discriminate.
  destruct (update_distributor_config_keeps_rest Mock.registry Mock.to_transfer_repo
              Mock.working_directory Mock.exception_args overflow_refusal "repo-1" "d1" (PyBool true)
              Mock.store {[ "a" := PyStr "A" ]} (mkRepo "repo-1" ∅) Mock.d1
              Mock.distributor ∅
              {[ "a" := PyStr "a"; "b" := PyStr "b"; "c" := PyStr "c" ]} (PyBool true)
              "repo-1" "d2" store_unique_oids eq_refl eq_refl eq_refl eq_refl eq_refl
              eq_refl (or_intror eq_refl) store_takes_published_d1 Hother)
    as (saved & st' & Hrun & _ & _ & Hpad & Hsched & Hap & _ & Hkept & _).
  exists saved, st'. unfold Mock.update. rewrite Hrun, Hkept. repeat split; assumption.
Defined.

Lemma add_distributor_keeps_configs_clean_witness :
  configs_clean
    (repo_distributors
       (snd (Mock.add "uuid" 9%N "repo-1" "mock-distributor"
               (Some {[ "a" := PyStr "a"; "b" := PyNone ]}) (PyBool true) (Some "d9")
               (mkDb [mkRepo "repo-1" ∅] [Mock.d2; Mock.d3] [])))).
Proof.
  exact (add_distributor_keeps_configs_clean Mock.registry Mock.to_transfer_repo
           Mock.working_directory overflow_refusal "uuid" 9%N "repo-1" "mock-distributor"
           (Some {[ "a" := PyStr "a"; "b" := PyNone ]}) (PyBool true) (Some "d9")
           (mkDb [mkRepo "repo-1" ∅] [Mock.d2; Mock.d3] []) d2_d3_configs_clean).
Defined.

Lemma update_distributor_config_keeps_configs_clean_witness :
  configs_clean
    (repo_distributors
       (fst (snd (Mock.update "repo-1" "d2" PyNone
                    (mkDb [mkRepo "repo-1" ∅] [Mock.d2; Mock.d3] [],
                     {[ "a" := PyStr "A"; "b" := PyNone ]}))))).
Proof.
  exact (update_distributor_config_keeps_configs_clean Mock.registry
           Mock.to_transfer_repo Mock.working_directory Mock.exception_args overflow_refusal
           "repo-1" "d2" PyNone (mkDb [mkRepo "repo-1" ∅] [Mock.d2; Mock.d3] [])
           {[ "a" := PyStr "A"; "b" := PyNone ]} d2_d3_configs_clean).
Defined.

Lemma handle_worker_heartbeat_touches_one_witness :
  WorkerWatcher.handle_worker_heartbeat (WorkerWatcher.heartbeat "worker-1" 7)
    {[ "worker-2" := WorkerWatcher.mkWorker "worker-2" 3 ]} !! "worker-2"
  = Some (WorkerWatcher.mkWorker "worker-2" 3).
Proof.
  assert (Hother : "worker-2" <> "worker-1") by discriminate.
  rewrite (proj1 (handle_worker_heartbeat_touches_one
                    (WorkerWatcher.heartbeat "worker-1" 7)
                    {[ "worker-2" := WorkerWatcher.mkWorker "worker-2" 3 ]}
                    "worker-2" Hother)).
  apply lookup_singleton_eq.
Defined.

Lemma store_refuses_big_d1 :
  overflow_refusal [Mock.d2; Mock.d3; Mock.d4]
    (new_RepoDistributor 9%N "repo-1" "d1" "mock-distributor"
       (without_None <$> Some {[ "n" := PyInt (2 ^ 63) ]}) (PyBool true))
  = Some (OverflowError "MongoDB can only handle up to 8-byte ints").
Proof. vm_compute. reflexivity. Qed.

(** Adding over [d1] with the configuration [{n: 2**63}]: the 8-byte
    limit refuses the document after [d1] has been removed. *)
Lemma add_distributor_save_refused_witness :
  Mock.add "uuid" 9%N "repo-1" "mock-distributor" (Some {[ "n" := PyInt (2 ^ 63) ]})
    (PyBool true) (Some "d1") Mock.store
  = (Raises (OverflowError "MongoDB can only handle up to 8-byte ints"),
     mkDb [mkRepo "repo-1" ∅] [Mock.d2; Mock.d3; Mock.d4]
       [mkScheduledCall "s2" "repo-1" "d2"])
  /\ find_one "repo-1" "d1" [Mock.d2; Mock.d3; Mock.d4] = None.
Proof.
  destruct (add_distributor_save_refused Mock.registry Mock.to_transfer_repo
              Mock.working_directory overflow_refusal "uuid" 9%N "repo-1"
              "mock-distributor" (Some {[ "n" := PyInt (2 ^ 63) ]}) (PyBool true)
              (Some "d1") Mock.store
              (mkDb [mkRepo "repo-1" ∅] [Mock.d2; Mock.d3; Mock.d4]
                 [mkScheduledCall "s2" "repo-1" "d2"])
              (mkRepo "repo-1" ∅) Mock.distributor ∅ "d1" (PyBool true)
              (OverflowError "MongoDB can only handle up to 8-byte ints")
              eq_refl eq_refl eq_refl eq_refl eq_refl eq_refl eq_refl
              store_refuses_big_d1)
    as (Hadd & _ & Hgone).
  split; [exact Hadd|]. exact (Hgone store_unique_keys eq_refl).
Defined.

Lemma store_refuses_big_update :
  overflow_refusal (repo_distributors Mock.store)
    (set_config
       (if is_None PyNone then Mock.d1 else set_auto_publish Mock.d1 PyNone)
       (fst (merge_delta {[ "a" := PyStr "a"; "b" := PyStr "b"; "c" := PyStr "c" ]}
               {[ "n" := PyInt (2 ^ 63); "b" := PyNone ]})))
  = Some (OverflowError "MongoDB can only handle up to 8-byte ints").
Proof. vm_compute. reflexivity. Qed.

Lemma store_refuses_big_scratchpad :
  overflow_refusal (repo_distributors Mock.store)
    (set_scratchpad Mock.d1 (PyInt (2 ^ 63)))
  = Some (OverflowError "MongoDB can only handle up to 8-byte ints").
Proof. vm_compute. reflexivity. Qed.

(** Updating [d1] with the delta [{n: 2**63, b: None}] and writing
    [2**63] as its scratchpad: both are refused and change nothing in
    the database. *)
Lemma changed_document_refused_witness :
  fst (Mock.update "repo-1" "d1" PyNone
         (Mock.store, {[ "n" := PyInt (2 ^ 63); "b" := PyNone ]}))
  = Raises (OverflowError "MongoDB can only handle up to 8-byte ints")
  /\ fst (snd (Mock.update "repo-1" "d1" PyNone
                 (Mock.store, {[ "n" := PyInt (2 ^ 63); "b" := PyNone ]})))
     = Mock.store
  /\ set_distributor_scratchpad overflow_refusal "repo-1" "d1" (PyInt (2 ^ 63))
       Mock.store
     = (Raises (OverflowError "MongoDB can only handle up to 8-byte ints"),
        Mock.store).
Proof.
  pose proof (proj1 (changed_document_refused Mock.registry Mock.to_transfer_repo
                       Mock.working_directory Mock.exception_args overflow_refusal)
                "repo-1" "d1" PyNone Mock.store
                {[ "n" := PyInt (2 ^ 63); "b" := PyNone ]}
                (mkRepo "repo-1" ∅) Mock.d1 Mock.distributor ∅
                {[ "a" := PyStr "a"; "b" := PyStr "b"; "c" := PyStr "c" ]}
                (PyBool true)
                (OverflowError "MongoDB can only handle up to 8-byte ints")
                eq_refl eq_refl eq_refl eq_refl eq_refl eq_refl (or_introl eq_refl)
                store_refuses_big_update) as Hupdate.
  unfold Mock.update. rewrite Hupdate. split; [reflexivity|]. split; [reflexivity|].
  exact (proj2 (changed_document_refused Mock.registry Mock.to_transfer_repo
                  Mock.working_directory Mock.exception_args overflow_refusal)
           "repo-1" "d1" (PyInt (2 ^ 63)) Mock.store Mock.d1
           (OverflowError "MongoDB can only handle up to 8-byte ints")
           eq_refl store_refuses_big_scratchpad).
Defined.
